(** * Payment simulator and load generator: a shallow embedding

    The repository holds two Node programs.  [payment-service/app.js] is an
    Express application whose handlers simulate payments, refunds and status
    lookups; the load generator (the second script of the repository) keeps
    a bounded pool of payment ids and fires a weighted mix of calls at the
    service from a [setInterval] callback.

    The embedding follows the scripts statement by statement.  JavaScript
    values are a small inductive type, objects read by key are finite maps,
    object literals written by the code are association lists in source
    order, and every source of non-determinism ([Math.random], [uuidv4],
    [faker], the clock) is an oracle indexed by the number of calls made so
    far, so that a handler is a function from a world to a result and a
    world.

    Numbers are rationals.  A draw of [Math.random] is a rational of
    [[0, 1)], which every double of that range is, and the decimal
    thresholds of the source ([0.05], [0.6], ...) stand for their decimal
    values.  Routing is Express's business: a request comes with the route
    it matched.  A [setTimeout] callback is a computation kept in the reply
    of the handler, to be run in the world as it is when the timer fires;
    likewise a tick of the generator is split at its [await]. *)

From Stdlib Require Import QArith Qround Lqa ZArith Lia.
From stdpp Require Import base strings pretty gmap list.

Open Scope string_scope.
Set Warnings "-register-all".

(** ** JavaScript values *)

Module Js.

Inductive JsValue : Type :=
| JUndefined
| JNull
| JBool (b : bool)
| JNum (q : Q)
| JStr (s : string)
| JArr (items : list JsValue)
| JObj (fields : list (string * JsValue)).

(** An object literal, keys in the order the source writes them. *)
Abbreviation Obj := (list (string * JsValue)).

(** ToBoolean.  Numbers are rationals here, so the only falsy number is
    zero (JSON has no NaN). *)
Definition truthy (v : JsValue) : bool :=
  match v with
  | JUndefined | JNull => false
  | JBool b => b
  | JNum q => negb (Qeq_bool q 0)
  | JStr s => negb (String.eqb s EmptyString)
  | JArr _ | JObj _ => true
  end.

(** [a || b] *)
Definition or_else (a b : JsValue) : JsValue := if truthy a then a else b.

(** [o.k] on a parsed object: a missing key reads as [undefined]. *)
Definition prop (o : gmap string JsValue) (k : string) : JsValue :=
  default JUndefined (o !! k).

(** [o.k] on an object literal. *)
Fixpoint field (k : string) (o : Obj) : JsValue :=
  match o with
  | [] => JUndefined
  | (k', v) :: rest => if String.eqb k k' then v else field k rest
  end.

Definition keys (o : Obj) : list string := map fst o.

Definition num (z : Z) : JsValue := JNum (inject_Z z).

(** [v === s] for a string [s]. *)
Definition isStr (s : string) (v : JsValue) : bool :=
  match v with
  | JStr s' => String.eqb s s'
  | _ => false
  end.

(** [x < y] on numbers. *)
Definition Qltb (x y : Q) : bool := negb (Qle_bool y x).

(** [Math.floor(x)] *)
Definition floor (x : Q) : Z := Qfloor x.

(** [arr[i]]: out of range reads as [undefined]. *)
Definition index (arr : list JsValue) (i : Z) : JsValue :=
  if (i <? 0)%Z then JUndefined else default JUndefined (arr !! Z.to_nat i).

(** [arr.shift()], the array that is left. *)
Definition shift (arr : list JsValue) : list JsValue := drop 1 arr.

(** [arr.splice(start, 1)], the array that is left.  A negative start counts
    from the end, a start past the end removes nothing. *)
Definition splice1 (arr : list JsValue) (start : Z) : list JsValue :=
  let len := Z.of_nat (length arr) in
  let from := if (start <? 0)%Z then Z.max (len + start) 0 else Z.min start len in
  delete (Z.to_nat from) arr.

End Js.

Import Js.

(** ** The payment service ([payment-service/app.js]) *)

Module PaymentService.

Inductive Level := Info | Error.

(** One call of [logger.info] or [logger.error] with its object argument. *)
Record LogRecord := { level : Level; entry : Obj }.

(** What the handlers draw from their environment.  The [n]-th call of a
    function returns the oracle's value at [n]. *)
Record Oracles := {
  mathRandom : nat -> Q;        (* Math.random() *)
  uuidv4 : nat -> string;       (* uuidv4() *)
  fakerAccount : nat -> string; (* faker.finance.account(10) *)
  dateNow : nat -> Z;           (* Date.now() and new Date(), in ms *)
  toISOString : Z -> string;    (* Date.prototype.toISOString *)
  SERVICE_NAME : string
}.

Record World := {
  randomCalls : nat;
  uuidCalls : nat;
  fakerCalls : nat;
  clockReads : nat;
  logged : list LogRecord  (* oldest first *)
}.

Definition M (A : Type) : Type := World -> A * World.

#[export] Instance M_ret : MRet M := fun A a w => (a, w).
#[export] Instance M_bind : MBind M :=
  fun A B k m w => let '(a, w') := m w in k a w'.
#[export] Instance M_fmap : FMap M :=
  fun A B f m w => let '(a, w') := m w in (f a, w').

Record Req := {
  method : string;
  path : string;
  headers : gmap string string;  (* Node lower-cases the names *)
  query : JsValue;
  ip : JsValue;
  body : gmap string JsValue;    (* as parsed by bodyParser.json() *)
  traceId : JsValue;
  transactionId : JsValue
}.

Record Res := {
  statusCode : Z;
  statusMessage : JsValue;
  resHeaders : gmap string JsValue;
  sent : option Obj;             (* the argument of res.json *)
  responseTime : JsValue;
  endHook : option (Z * Req)     (* [start] and [req] captured by the overriding res.end *)
}.

(** A response object as Express hands it to the first middleware. *)
Definition freshRes : Res :=
  {| statusCode := 200; statusMessage := JUndefined; resHeaders := ∅;
     sent := None; responseTime := JUndefined; endHook := None |}.

(** What a route handler leaves behind when it returns: a response already
    sent, or a [setTimeout] callback that will send it. *)
Inductive Reply :=
| Sent (res : Res)
| Timer (ms : Z) (callback : M Res).

Inductive Route :=
| PostPayments
| GetPaymentStatus (paymentId : string)  (* req.params.paymentId *)
| PostRefunds
| GetHealth
| GetRoot.

Section Handlers.
Context (O : Oracles).

Definition math_random : M Q := fun w =>
  (mathRandom O (randomCalls w),
   {| randomCalls := S (randomCalls w); uuidCalls := uuidCalls w;
      fakerCalls := fakerCalls w; clockReads := clockReads w; logged := logged w |}).

Definition uuid : M string := fun w =>
  (uuidv4 O (uuidCalls w),
   {| randomCalls := randomCalls w; uuidCalls := S (uuidCalls w);
      fakerCalls := fakerCalls w; clockReads := clockReads w; logged := logged w |}).

Definition faker_account : M string := fun w =>
  (fakerAccount O (fakerCalls w),
   {| randomCalls := randomCalls w; uuidCalls := uuidCalls w;
      fakerCalls := S (fakerCalls w); clockReads := clockReads w; logged := logged w |}).

Definition date_now : M Z := fun w =>
  (dateNow O (clockReads w),
   {| randomCalls := randomCalls w; uuidCalls := uuidCalls w;
      fakerCalls := fakerCalls w; clockReads := S (clockReads w); logged := logged w |}).

Definition log (l : Level) (o : Obj) : M unit := fun w =>
  (tt,
   {| randomCalls := randomCalls w; uuidCalls := uuidCalls w;
      fakerCalls := fakerCalls w; clockReads := clockReads w;
      logged := logged w ++ [{| level := l; entry := o |}] |}).

Definition header (req : Req) (name : string) : JsValue :=
  match headers req !! name with
  | Some v => JStr v
  | None => JUndefined
  end.

Definition endpoint (req : Req) : JsValue :=
  JStr (method req +:+ " " +:+ path req).

(** [res.status(code)] *)
Definition status (res : Res) (code : Z) : Res :=
  {| statusCode := code; statusMessage := statusMessage res;
     resHeaders := resHeaders res; sent := sent res;
     responseTime := responseTime res; endHook := endHook res |}.

(** [res.setHeader(name, value)] *)
Definition setHeader (res : Res) (name : string) (value : JsValue) : Res :=
  {| statusCode := statusCode res; statusMessage := statusMessage res;
     resHeaders := <[name := value]> (resHeaders res); sent := sent res;
     responseTime := responseTime res; endHook := endHook res |}.

(** The request-id middleware (first [app.use] after the body parser). *)
Definition requestId (req : Req) (res : Res) : M (Req * Res) :=
  traceId ← (let h := header req "x-trace-id" in
              if truthy h then mret h else JStr <$> uuid);
  transactionId ← JStr <$> uuid;
  let req := {| method := method req; path := path req; headers := headers req;
                query := query req; ip := ip req; body := body req;
                traceId := traceId; transactionId := transactionId |} in
  let res := setHeader res "x-trace-id" traceId in
  let res := setHeader res "x-transaction-id" transactionId in
  log Info [ ("trace_id", traceId);
             ("transaction_id", transactionId);
             ("message", JStr "Incoming request");
             ("method", JStr (method req));
             ("path", JStr (path req));
             ("query", query req);
             ("client_ip", ip req);
             ("user_agent", header req "user-agent");
             ("endpoint", endpoint req);
             ("event_type", JStr "request") ];;
  mret (req, res).

(** The response-time middleware: it replaces [res.end]. *)
Definition responseTimer (req : Req) (res : Res) : M Res :=
  start ← date_now;
  mret {| statusCode := statusCode res; statusMessage := statusMessage res;
          resHeaders := resHeaders res; sent := sent res;
          responseTime := responseTime res; endHook := Some (start, req) |}.

(** [res.end], as overridden when the hook is installed. *)
Definition res_end (res : Res) : M Res :=
  match endHook res with
  | None => mret res
  | Some (start, req) =>
      now ← date_now;
      let responseTime := (now - start)%Z in
      let res := {| statusCode := statusCode res; statusMessage := statusMessage res;
                    resHeaders := resHeaders res; sent := sent res;
                    responseTime := num responseTime; endHook := endHook res |} in
      let logData := [ ("trace_id", traceId req);
                       ("transaction_id", transactionId req);
                       ("message", JStr "Request completed");
                       ("method", JStr (method req));
                       ("path", JStr (path req));
                       ("status_code", num (statusCode res));
                       ("response_time", num responseTime);
                       ("endpoint", endpoint req);
                       ("event_type", JStr "response") ] in
      let logData :=
        if (400 <=? statusCode res)%Z
        then (logData ++ [ ("level", JStr "error");
                           ("error", or_else (statusMessage res) (JStr "Request failed")) ])%list
        else (logData ++ [ ("level", JStr "info") ])%list in
      log Info logData;;
      mret res
  end.

(** [res.json(obj)]: record the body and end the response. *)
Definition json (res : Res) (obj : Obj) : M Res :=
  res_end {| statusCode := statusCode res; statusMessage := statusMessage res;
             resHeaders := resHeaders res; sent := Some obj;
             responseTime := responseTime res; endHook := endHook res |}.

(** [new Date().toISOString()] *)
Definition isoNow : M JsValue :=
  now ← date_now; mret (JStr (toISOString O now)).

(** *** POST /api/payments *)

(** [null] unless the field is falsy. *)
Definition required (v : JsValue) (msg : string) : JsValue :=
  if negb (truthy v) then JStr msg else JNull.

(** The body of the [setTimeout] callback of the payment handler.  The three
    flags and [processingTime] were fixed before the timer was set. *)
Definition paymentOutcome (req : Req) (res : Res)
    (amount currency customerId : JsValue) (paymentId : string)
    (processingTime : Z)
    (simulateFailure simulateTimeout simulateValidationError : bool) : M Res :=
  if simulateTimeout then
    log Error [ ("trace_id", traceId req);
                ("transaction_id", transactionId req);
                ("message", JStr "Payment gateway timeout");
                ("method", JStr (method req));
                ("path", JStr (path req));
                ("payment_id", JStr paymentId);
                ("transaction_type", JStr "payment");
                ("status_code", num 504);
                ("error", JStr "Payment gateway timeout");
                ("processing_time", num processingTime);
                ("event_type", JStr "payment_timeout") ];;
    json (status res 504)
         [ ("success", JBool false);
           ("payment_id", JStr paymentId);
           ("error", JStr "Payment gateway timeout") ]
  else if simulateValidationError then
    r ← math_random;
    let errorReason :=
      if Qltb r 0.5 then "Invalid card details" else "Insufficient funds" in
    log Error [ ("trace_id", traceId req);
                ("transaction_id", transactionId req);
                ("message", JStr ("Payment validation error: " +:+ errorReason));
                ("method", JStr (method req));
                ("path", JStr (path req));
                ("payment_id", JStr paymentId);
                ("transaction_type", JStr "payment");
                ("status_code", num 400);
                ("error", JStr errorReason);
                ("processing_time", num processingTime);
                ("event_type", JStr "payment_validation_error") ];;
    json (status res 400)
         [ ("success", JBool false);
           ("payment_id", JStr paymentId);
           ("error", JStr errorReason) ]
  else if simulateFailure then
    log Error [ ("trace_id", traceId req);
                ("transaction_id", transactionId req);
                ("message", JStr "Payment processing failed");
                ("method", JStr (method req));
                ("path", JStr (path req));
                ("payment_id", JStr paymentId);
                ("transaction_type", JStr "payment");
                ("status_code", num 500);
                ("error", JStr "Payment processor error");
                ("processing_time", num processingTime);
                ("event_type", JStr "payment_failure") ];;
    json (status res 500)
         [ ("success", JBool false);
           ("payment_id", JStr paymentId);
           ("error", JStr "Payment processor error") ]
  else
    log Info [ ("trace_id", traceId req);
               ("transaction_id", transactionId req);
               ("message", JStr "Payment processed successfully");
               ("method", JStr (method req));
               ("path", JStr (path req));
               ("payment_id", JStr paymentId);
               ("transaction_type", JStr "payment");
               ("status_code", num 200);
               ("amount", amount);
               ("currency", currency);
               ("customer_id", customerId);
               ("processing_time", num processingTime);
               ("event_type", JStr "payment_success") ];;
    timestamp ← isoNow;
    json (status res 200)
         [ ("success", JBool true);
           ("payment_id", JStr paymentId);
           ("amount", amount);
           ("currency", currency);
           ("status", JStr "completed");
           ("timestamp", timestamp) ].

Definition postPayments (req : Req) (res : Res) : M Reply :=
  let amount := prop (body req) "amount" in
  let currency := prop (body req) "currency" in
  let customerId := prop (body req) "customerId" in
  if negb (truthy amount) || negb (truthy currency) || negb (truthy customerId) then
    log Error [ ("trace_id", traceId req);
                ("transaction_id", transactionId req);
                ("message", JStr "Payment validation failed");
                ("method", JStr (method req));
                ("path", JStr (path req));
                ("status_code", num 400);
                ("error", JStr "Missing required fields");
                ("validation_errors",
                 JObj [ ("amount", required amount "Amount is required");
                        ("currency", required currency "Currency is required");
                        ("customerId", required customerId "Customer ID is required") ]);
                ("event_type", JStr "payment_validation_error") ];;
    res ← json (status res 400)
               [ ("success", JBool false);
                 ("error", JStr "Missing required fields for payment") ];
    mret (Sent res)
  else
    account ← faker_account;
    let paymentId := "pmt_" +:+ account in
    r ← math_random;
    let processingTime := (floor (r * 1950) + 50)%Z in
    r ← math_random;
    let simulateFailure := Qltb r 0.2 in
    r ← math_random;
    let simulateTimeout := Qltb r 0.05 in
    r ← math_random;
    let simulateValidationError := Qltb r 0.1 in
    log Info [ ("trace_id", traceId req);
               ("transaction_id", transactionId req);
               ("message", JStr "Processing payment");
               ("method", JStr (method req));
               ("path", JStr (path req));
               ("payment_id", JStr paymentId);
               ("transaction_type", JStr "payment");
               ("amount", amount);
               ("currency", currency);
               ("customer_id", customerId);
               ("estimated_processing_time", num processingTime);
               ("event_type", JStr "payment_processing") ];;
    mret (Timer processingTime
            (paymentOutcome req res amount currency customerId paymentId
               processingTime simulateFailure simulateTimeout
               simulateValidationError)).

(** *** GET /api/payments/:paymentId *)

Definition statuses : list string := ["completed"; "pending"; "failed"; "refunded"].

(** [statuses[i]]: [None] stands for [undefined]. *)
Definition pickStatus (i : Z) : option string :=
  if (i <? 0)%Z then None else statuses !! Z.to_nat i.

Definition shown (s : option string) : string := default "undefined" s.

Definition jsOf (s : option string) : JsValue :=
  match s with Some v => JStr v | None => JUndefined end.

Definition getPaymentStatus (paymentId : string) (req : Req) (res : Res) : M Reply :=
  log Info [ ("trace_id", traceId req);
             ("transaction_id", transactionId req);
             ("message", JStr "Payment status lookup");
             ("method", JStr (method req));
             ("path", JStr (path req));
             ("payment_id", JStr paymentId);
             ("transaction_type", JStr "payment_lookup");
             ("event_type", JStr "status_check") ];;
  r ← math_random;
  let randomStatus := pickStatus (floor (r * inject_Z (Z.of_nat (length statuses)))) in
  r ← math_random;
  let processingTime := (floor (r * 290) + 10)%Z in
  mret (Timer processingTime
          (log Info [ ("trace_id", traceId req);
                      ("transaction_id", transactionId req);
                      ("message", JStr ("Payment status: " +:+ shown randomStatus));
                      ("method", JStr (method req));
                      ("path", JStr (path req));
                      ("payment_id", JStr paymentId);
                      ("transaction_type", JStr "payment_lookup");
                      ("status", jsOf randomStatus);
                      ("processing_time", num processingTime);
                      ("event_type", JStr "status_result") ];;
           timestamp ← isoNow;
           json res [ ("payment_id", JStr paymentId);
                      ("status", jsOf randomStatus);
                      ("timestamp", timestamp) ])).

(** *** POST /api/refunds *)

Definition postRefunds (req : Req) (res : Res) : M Reply :=
  let paymentId := prop (body req) "paymentId" in
  let amount := prop (body req) "amount" in
  let reason := prop (body req) "reason" in
  if negb (truthy paymentId) || negb (truthy amount) then
    log Error [ ("trace_id", traceId req);
                ("transaction_id", transactionId req);
                ("message", JStr "Refund validation failed");
                ("method", JStr (method req));
                ("path", JStr (path req));
                ("status_code", num 400);
                ("error", JStr "Missing required fields");
                ("validation_errors",
                 JObj [ ("paymentId", required paymentId "Payment ID is required");
                        ("amount", required amount "Amount is required") ]);
                ("event_type", JStr "refund_validation_error") ];;
    res ← json (status res 400)
               [ ("success", JBool false);
                 ("error", JStr "Missing required fields for refund") ];
    mret (Sent res)
  else
    account ← faker_account;
    let refundId := "ref_" +:+ account in
    r ← math_random;
    let processingTime := (floor (r * 1500) + 100)%Z in
    log Info [ ("trace_id", traceId req);
               ("transaction_id", transactionId req);
               ("message", JStr "Processing refund");
               ("method", JStr (method req));
               ("path", JStr (path req));
               ("refund_id", JStr refundId);
               ("payment_id", paymentId);
               ("transaction_type", JStr "refund");
               ("amount", amount);
               ("reason", or_else reason (JStr "Not specified"));
               ("event_type", JStr "refund_processing") ];;
    r ← math_random;
    let simulateFailure := Qltb r 0.15 in
    mret (Timer processingTime
            (if simulateFailure then
               log Error [ ("trace_id", traceId req);
                           ("transaction_id", transactionId req);
                           ("message", JStr "Refund processing failed");
                           ("method", JStr (method req));
                           ("path", JStr (path req));
                           ("refund_id", JStr refundId);
                           ("payment_id", paymentId);
                           ("transaction_type", JStr "refund");
                           ("status_code", num 500);
                           ("error", JStr "Refund processor error");
                           ("processing_time", num processingTime);
                           ("event_type", JStr "refund_failure") ];;
               json (status res 500)
                    [ ("success", JBool false);
                      ("refund_id", JStr refundId);
                      ("payment_id", paymentId);
                      ("error", JStr "Refund processor error") ]
             else
               log Info [ ("trace_id", traceId req);
                          ("transaction_id", transactionId req);
                          ("message", JStr "Refund processed successfully");
                          ("method", JStr (method req));
                          ("path", JStr (path req));
                          ("refund_id", JStr refundId);
                          ("payment_id", paymentId);
                          ("transaction_type", JStr "refund");
                          ("status_code", num 200);
                          ("amount", amount);
                          ("processing_time", num processingTime);
                          ("event_type", JStr "refund_success") ];;
               timestamp ← isoNow;
               json (status res 200)
                    [ ("success", JBool true);
                      ("refund_id", JStr refundId);
                      ("payment_id", paymentId);
                      ("amount", amount);
                      ("status", JStr "completed");
                      ("timestamp", timestamp) ])).

(** *** GET /health and GET / *)

Definition getHealth (req : Req) (res : Res) : M Reply :=
  log Info [ ("trace_id", traceId req);
             ("transaction_id", transactionId req);
             ("message", JStr "Health check");
             ("method", JStr (method req));
             ("path", JStr (path req));
             ("transaction_type", JStr "health_check");
             ("event_type", JStr "system") ];;
  res ← json (status res 200)
             [ ("status", JStr "ok"); ("service", JStr (SERVICE_NAME O)) ];
  mret (Sent res).

Definition endpointInfo (m p d : string) : JsValue :=
  JObj [ ("method", JStr m); ("path", JStr p); ("description", JStr d) ].

Definition getRoot (req : Req) (res : Res) : M Reply :=
  log Info [ ("trace_id", traceId req);
             ("transaction_id", transactionId req);
             ("message", JStr "Service info request");
             ("method", JStr (method req));
             ("path", JStr (path req));
             ("transaction_type", JStr "info");
             ("event_type", JStr "system") ];;
  res ← json (status res 200)
             [ ("service", JStr (SERVICE_NAME O));
               ("version", JStr "1.0.0");
               ("endpoints",
                JArr [ endpointInfo "POST" "/api/payments" "Process a payment";
                       endpointInfo "GET" "/api/payments/:paymentId" "Get payment status";
                       endpointInfo "POST" "/api/refunds" "Process a refund";
                       endpointInfo "GET" "/health" "Health check" ]) ];
  mret (Sent res).

(** *** The pipeline of one request *)

Definition dispatch (route : Route) (req : Req) (res : Res) : M Reply :=
  match route with
  | PostPayments => postPayments req res
  | GetPaymentStatus paymentId => getPaymentStatus paymentId req res
  | PostRefunds => postRefunds req res
  | GetHealth => getHealth req res
  | GetRoot => getRoot req res
  end.

(** The synchronous part: both middlewares, then the route handler. *)
Definition accept (route : Route) (req : Req) : M (Req * Reply) :=
  '(req, res) ← requestId req freshRes;
  res ← responseTimer req res;
  reply ← dispatch route req res;
  mret (req, reply).

(** A pending timer fires. *)
Definition fire (reply : Reply) : M Res :=
  match reply with
  | Sent res => mret res
  | Timer _ callback => callback
  end.

(** One request served with nothing else running in between. *)
Definition serve (route : Route) (req : Req) : M Res :=
  '(_, reply) ← accept route req;
  fire reply.

End Handlers.

End PaymentService.

(** ** Events of a run

    What a handler adds to the log, and the predicates used to state what
    every such event carries. *)

Module Events.
Import PaymentService.

(** The events a run from [w] to [w'] has added to the log. *)
Definition added (w w' : World) : list LogRecord :=
  drop (length (logged w)) (logged w').

Definition typesOf (evs : list LogRecord) : list JsValue :=
  (fun r => field "event_type" (entry r)) <$> evs.

(** [emits P Q m]: whatever the world, [m] only appends events that satisfy
    [P], and its result satisfies [Q]. *)
Definition emits {A} (P : LogRecord -> Prop) (Q : A -> Prop) (m : M A) : Prop :=
  forall w, exists evs,
    logged (m w).2 = (logged w ++ evs)%list /\ Forall P evs /\ Q (m w).1.

(** A request and a response as the two middlewares leave them: the hook of
    [res.end] holds the request itself. *)
Definition hooked (req : Req) (res : Res) : Prop :=
  forall start rq, endHook res = Some (start, rq) -> rq = req.

(** An event that carries the two correlation ids. *)
Definition tagged (trace txn : JsValue) (ev : LogRecord) : Prop :=
  field "trace_id" (entry ev) = trace /\ field "transaction_id" (entry ev) = txn.

(** The reply of a handler for [req] and [res]: when it is sent, at once or
    from the timer, every event carries the ids of [req] and the response
    has the headers of [res]. *)
Definition answers (req : Req) (res : Res) (reply : Reply) : Prop :=
  emits (tagged (traceId req) (transactionId req))
        (fun out => resHeaders out = resHeaders res)
        (fire reply).

End Events.

(** ** The load generator *)

Module LoadGenerator.

(** [parseInt] gives a number or NaN ([None]). *)
Record Config := {
  paymentServiceUrl : string;
  requestsPerMinute : option Z;
  runForever : bool;
  durationMinutes : option Z;
  randomSeed : string
}.

(** [process.env.NAME || dflt] *)
Definition envOr (env : gmap string string) (name dflt : string) : string :=
  match env !! name with
  | Some v => if String.eqb v EmptyString then dflt else v
  | None => dflt
  end.

(** [process.env.NAME === s] *)
Definition envIs (env : gmap string string) (name s : string) : bool :=
  match env !! name with
  | Some v => String.eqb v s
  | None => false
  end.

(** What an [await]ed axios call comes back with: a 2xx response and its
    parsed body, or a rejection (another status, or no answer). *)
Inductive HttpResult :=
| Resolved (data : gmap string JsValue)
| Rejected.

(** The value [makePaymentRequest] returns. *)
Definition makePaymentRequest (r : HttpResult) : JsValue :=
  match r with
  | Resolved data => prop data "payment_id"
  | Rejected => JNull
  end.

(** The request a tick sends. *)
Inductive Call :=
| MakePayment
| GetPaymentStatus (paymentId : JsValue)
| MakeRefund (paymentId : JsValue)
| HealthCheck.

(** What is left of the tick's callback after its [await]. *)
Inductive Rest :=
| Remember                       (* push the id and trim the pool *)
| Nothing
| MaybeForget (randomIndex : Z). (* flip a coin, splice *)

Inductive TimerJob := LoadLoop | PeriodicHealth.

Record Gen := {
  successfulPaymentIds : list JsValue;
  randomCalls : nat;                (* calls of Math.random() so far *)
  timers : gmap nat TimerJob;       (* the intervals that are still set *)
  nextHandle : nat;
  loadInterval : option nat         (* the variable [loadInterval] *)
}.

Definition withPool (g : Gen) (ids : list JsValue) : Gen :=
  {| successfulPaymentIds := ids; randomCalls := randomCalls g;
     timers := timers g; nextHandle := nextHandle g;
     loadInterval := loadInterval g |}.

(** [setInterval(job, _)]: the new handle and the generator. *)
Definition setInterval (job : TimerJob) (g : Gen) : nat * Gen :=
  (nextHandle g,
   {| successfulPaymentIds := successfulPaymentIds g; randomCalls := randomCalls g;
      timers := <[nextHandle g := job]> (timers g); nextHandle := S (nextHandle g);
      loadInterval := loadInterval g |}).

(** [clearInterval(h)] *)
Definition clearInterval (h : option nat) (g : Gen) : Gen :=
  match h with
  | Some n =>
      {| successfulPaymentIds := successfulPaymentIds g; randomCalls := randomCalls g;
         timers := delete n (timers g); nextHandle := nextHandle g;
         loadInterval := loadInterval g |}
  | None => g
  end.

(** The generator after [n] more calls of [Math.random()]. *)
Definition drawn (n : nat) (g : Gen) : Gen :=
  {| successfulPaymentIds := successfulPaymentIds g;
     randomCalls := n + randomCalls g;
     timers := timers g; nextHandle := nextHandle g;
     loadInterval := loadInterval g |}.

Section Generator.
Context (parseInt : string -> option Z) (mathRandom : nat -> Q).

Definition CONFIG (env : gmap string string) : Config :=
  {| paymentServiceUrl := envOr env "PAYMENT_SERVICE_URL" "http://payment-service:3000";
     requestsPerMinute := parseInt (envOr env "REQUESTS_PER_MINUTE" "30");
     runForever := envIs env "RUN_FOREVER" "true" || true;
     durationMinutes := parseInt (envOr env "DURATION_MINUTES" "30");
     randomSeed := envOr env "RANDOM_SEED" "12345" |}.

Definition random (g : Gen) : Q * Gen :=
  (mathRandom (randomCalls g),
   {| successfulPaymentIds := successfulPaymentIds g; randomCalls := S (randomCalls g);
      timers := timers g; nextHandle := nextHandle g;
      loadInterval := loadInterval g |}).

Definition getRandomInt (min max : Z) (g : Gen) : Z * Gen :=
  let '(r, g) := random g in
  ((floor (r * inject_Z (max - min + 1)) + min)%Z, g).

(** [startTime + durationMinutes * 60 * 1000] *)
Definition endTimeOf (cfg : Config) (startTime : Z) : option Z :=
  (fun d => startTime + d * 60 * 1000)%Z <$> durationMinutes cfg.

(** [Date.now() > endTime]; a comparison with NaN is false. *)
Definition pastEnd (now : Z) (endTime : option Z) : bool :=
  match endTime with
  | Some e => (e <? now)%Z
  | None => false
  end.

(** The interval callback up to its [await]: the call it sends and what it
    will do when the call comes back, or [None] when it stops the loop. *)
Definition tickBegin (cfg : Config) (endTime : option Z) (now : Z) (g : Gen)
    : option (Call * Rest) * Gen :=
  if negb (runForever cfg) && pastEnd now endTime then
    (None, clearInterval (loadInterval g) g)
  else
    let '(requestType, g) := random g in
    if Qltb requestType 0.6 then
      (Some (MakePayment, Remember), g)
    else if Qltb requestType 0.8 then
      if (0 <? length (successfulPaymentIds g))%nat then
        let '(randomIndex, g) :=
          getRandomInt 0 (Z.of_nat (length (successfulPaymentIds g)) - 1) g in
        (Some (GetPaymentStatus (index (successfulPaymentIds g) randomIndex), Nothing), g)
      else
        (Some (MakePayment, Nothing), g)
    else if Qltb requestType 0.95 then
      if (0 <? length (successfulPaymentIds g))%nat then
        let '(randomIndex, g) :=
          getRandomInt 0 (Z.of_nat (length (successfulPaymentIds g)) - 1) g in
        (Some (MakeRefund (index (successfulPaymentIds g) randomIndex),
               MaybeForget randomIndex), g)
      else
        (Some (MakePayment, Nothing), g)
    else
      (Some (HealthCheck, Nothing), g).

(** The interval callback after its [await], on the generator as it is when
    the call comes back. *)
Definition tickResume (rest : Rest) (result : HttpResult) (g : Gen) : Gen :=
  match rest with
  | Remember =>
      let paymentId := makePaymentRequest result in
      if truthy paymentId then
        let ids := (successfulPaymentIds g ++ [paymentId])%list in
        if (100 <? length ids)%nat then withPool g (shift ids) else withPool g ids
      else g
  | Nothing => g
  | MaybeForget randomIndex =>
      let '(coin, g) := random g in
      if Qltb 0.5 coin
      then withPool g (splice1 (successfulPaymentIds g) randomIndex)
      else g
  end.

(** One tick with no other tick in flight. *)
Definition tick (cfg : Config) (endTime : option Z) (now : Z)
    (result : HttpResult) (g : Gen) : option Call * Gen :=
  match tickBegin cfg endTime now g with
  | (Some (call, rest), g) => (Some call, tickResume rest result g)
  | (None, g) => (None, g)
  end.

(** Payment ticks one after the other, each resumed with the id of a
    successful payment before the next one begins. *)
Definition payments (cfg : Config) (endTime : option Z) (now : Z)
    (ids : list JsValue) (g : Gen) : Gen :=
  foldl (fun g id => (tick cfg endTime now (Resolved {[ "payment_id" := id ]}) g).2)
        g ids.

(** [runLoadGenerator] once both intervals are set. *)
Definition started : Gen :=
  let g := {| successfulPaymentIds := []; randomCalls := 0; timers := ∅;
              nextHandle := 0; loadInterval := None |} in
  let '(h, g) := setInterval LoadLoop g in
  let g := {| successfulPaymentIds := successfulPaymentIds g; randomCalls := randomCalls g;
              timers := timers g; nextHandle := nextHandle g;
              loadInterval := Some h |} in
  let '(_, g) := setInterval PeriodicHealth g in
  g.

(** The generator with its calls in flight: a timer fires, or a call comes
    back, in any order. *)
Inductive step (cfg : Config) (endTime : option Z)
    : Gen * list Rest -> Gen * list Rest -> Prop :=
| step_tick g g' h now call rest inflight :
    timers g !! h = Some LoadLoop ->
    tickBegin cfg endTime now g = (Some (call, rest), g') ->
    step cfg endTime (g, inflight) (g', rest :: inflight)
| step_stop g g' h now inflight :
    timers g !! h = Some LoadLoop ->
    tickBegin cfg endTime now g = (None, g') ->
    step cfg endTime (g, inflight) (g', inflight)
| step_health g h inflight :
    timers g !! h = Some PeriodicHealth ->
    step cfg endTime (g, inflight) (g, inflight)
| step_resume g rest result before after :
    step cfg endTime (g, (before ++ rest :: after)%list)
                     (tickResume rest result g, (before ++ after)%list).

End Generator.

End LoadGenerator.

(** ** Loading [payment-service/app.js]

    The top level of the script, statement by statement.  Node compiles a
    module before it runs any of it: a name declared twice by [const] in
    one scope is an early error and nothing is evaluated.  When the module
    compiles, the statements run in order; calling a name that nothing
    binds throws. *)

Module Loading.

Inductive Expr :=
| Require (spec : string)             (* require('spec') *)
| EnvOr (name : string)               (* process.env.NAME || default *)
| CallOf (callee : string)            (* callee(...) *)
| MethodOf (object name : string).    (* object.name(...) *)

Inductive Stmt :=
| Const (name : string) (init : Expr) (* const name = init; also const { _: name } = init *)
| Use (app : string) (arg : option Expr)  (* app.use(...) *)
| RouteOf (app verb path : string)    (* app.get(path, handler), app.post(path, handler) *)
| Listen (app : string)               (* app.listen(PORT, ...) *)
| On (target event : string).         (* process.on(event, ...) *)

Definition app_js : list Stmt :=
  [ Const "express" (Require "express");
    Const "uuidv4" (Require "uuid");
    Const "pino" (Require "pino");
    Const "bodyParser" (Require "body-parser");
    Const "faker" (Require "faker");
    Const "path" (Require "path");
    Const "fs" (Require "fs");
    Const "PORT" (EnvOr "PORT");
    Const "SERVICE_NAME" (EnvOr "SERVICE_NAME");
    Const "logger" (CallOf "pino");
    Const "logger" (CallOf "connectLogger");
    Const "app" (CallOf "express");
    Use "app" (Some (MethodOf "bodyParser" "json"));
    Use "app" None;
    Use "app" None;
    RouteOf "app" "POST" "/api/payments";
    RouteOf "app" "GET" "/api/payments/:paymentId";
    RouteOf "app" "POST" "/api/refunds";
    RouteOf "app" "GET" "/health";
    RouteOf "app" "GET" "/";
    Listen "app";
    On "process" "SIGTERM" ].

Definition declared (s : Stmt) : option string :=
  match s with
  | Const name _ => Some name
  | _ => None
  end.

(** LexicallyDeclaredNames of the statement list. *)
Definition lexicallyDeclaredNames (prog : list Stmt) : list string :=
  omap declared prog.

(** The first name that is declared a second time. *)
Fixpoint firstDuplicate (names : list string) (seen : gset string) : option string :=
  match names with
  | [] => None
  | n :: rest =>
      if bool_decide (n ∈ seen) then Some n
      else firstDuplicate rest ({[n]} ∪ seen)
  end.

(** Names the module finds bound before its first statement. *)
Definition globals : gset string := {[ "require"; "process" ]}.

Record Server := {
  middlewares : nat;
  routes : list (string * string);
  listening : bool;
  signals : list string
}.

Inductive Outcome :=
| SyntaxError (name : string)     (* Identifier 'name' has already been declared *)
| ReferenceError (name : string)  (* name is not defined *)
| Loaded (server : Server).

Definition usable (bound : gset string) (name : string) : bool :=
  bool_decide (name ∈ bound).

(** The free name an initialiser needs, when it needs one. *)
Definition needs (e : Expr) : string :=
  match e with
  | Require _ => "require"
  | EnvOr _ => "process"
  | CallOf callee => callee
  | MethodOf object _ => object
  end.

Fixpoint run (prog : list Stmt) (bound : gset string) (srv : Server) : Outcome :=
  match prog with
  | [] => Loaded srv
  | Const name init :: rest =>
      if usable bound (needs init) then run rest ({[name]} ∪ bound) srv
      else ReferenceError (needs init)
  | Use app arg :: rest =>
      if negb (usable bound app) then ReferenceError app
      else match arg with
           | Some e =>
               if usable bound (needs e)
               then run rest bound
                      {| middlewares := S (middlewares srv); routes := routes srv;
                         listening := listening srv; signals := signals srv |}
               else ReferenceError (needs e)
           | None =>
               run rest bound
                 {| middlewares := S (middlewares srv); routes := routes srv;
                    listening := listening srv; signals := signals srv |}
           end
  | RouteOf app verb path :: rest =>
      if usable bound app
      then run rest bound
             {| middlewares := middlewares srv;
                routes := (routes srv ++ [(verb, path)])%list;
                listening := listening srv; signals := signals srv |}
      else ReferenceError app
  | Listen app :: rest =>
      if usable bound app
      then run rest bound
             {| middlewares := middlewares srv; routes := routes srv;
                listening := true; signals := signals srv |}
      else ReferenceError app
  | On target event :: rest =>
      if usable bound target
      then run rest bound
             {| middlewares := middlewares srv; routes := routes srv;
                listening := listening srv;
                signals := (signals srv ++ [event])%list |}
      else ReferenceError target
  end.

Definition noServer : Server :=
  {| middlewares := 0; routes := []; listening := false; signals := [] |}.

Definition load (prog : list Stmt) : Outcome :=
  match firstDuplicate (lexicallyDeclaredNames prog) ∅ with
  | Some name => SyntaxError name
  | None => run prog globals noServer
  end.

(** The routes a client can reach after the load. *)
Definition served (o : Outcome) : list (string * string) :=
  match o with
  | Loaded srv => if listening srv then routes srv else []
  | _ => []
  end.

(** The initialisers given to a name, in source order. *)
Definition initialisers (name : string) (prog : list Stmt) : list Expr :=
  omap (fun s => match s with
                 | Const n init => if String.eqb n name then Some init else None
                 | _ => None
                 end) prog.

End Loading.

(** ** The requests the generator sends

    The request generators of the load generator, the request Express
    receives for a call of [axios.post], and what the awaited call comes
    back with.  [faker] and [uuidv4] on the generator's side are oracles
    like those of the service; [faker]'s functions share one seeded state,
    so each is indexed by the number of [faker] calls made before it. *)

Module Client.
Import LoadGenerator.

Record Sources := {
  fakerUuid : nat -> string;         (* faker.datatype.uuid() *)
  fakerCardNumber : nat -> string;   (* faker.finance.creditCardNumber() *)
  fakerCardCVV : nat -> string;      (* faker.finance.creditCardCVV() *)
  fakerSentence : nat -> string;     (* faker.lorem.sentence() *)
  clientUuid : nat -> string         (* uuidv4() *)
}.

Definition currencies : list JsValue :=
  [JStr "USD"; JStr "EUR"; JStr "GBP"; JStr "JPY"; JStr "CAD"; JStr "AUD"].

Section Requests.
Context (src : Sources) (mathRandom : nat -> Q).

(** [generatePaymentRequest()], with [k] calls of [faker] made before. *)
Definition generatePaymentRequest (g : Gen) (k : nat) : Obj * Gen * nat :=
  let '(cents, g) := getRandomInt mathRandom 100 10000 g in
  let amount := JNum (inject_Z cents / 100) in
  let '(i, g) := getRandomInt mathRandom 0 (Z.of_nat (length currencies) - 1) g in
  let currency := index currencies i in
  let customerId := "cust_" +:+ String.substring 0 8 (fakerUuid src k) in
  let number := fakerCardNumber src (1 + k) in
  let '(month, g) := getRandomInt mathRandom 1 12 g in
  let '(year, g) := getRandomInt mathRandom 23 30 g in
  let cvv := fakerCardCVV src (2 + k) in
  ([ ("amount", amount);
     ("currency", currency);
     ("customerId", JStr customerId);
     ("cardDetails",
      JObj [ ("number", JStr number);
             ("expiry", JStr (pretty month +:+ "/" +:+ pretty year));
             ("cvv", JStr cvv) ]) ],
   g, 3 + k).

(** [generateRefundRequest(paymentId)] *)
Definition generateRefundRequest (paymentId : JsValue) (g : Gen) (k : nat)
    : Obj * Gen * nat :=
  let '(cents, g) := getRandomInt mathRandom 50 10000 g in
  ([ ("paymentId", paymentId);
     ("amount", JNum (inject_Z cents / 100));
     ("reason", JStr (fakerSentence src k)) ],
   g, 1 + k).

End Requests.

(** A JSON body as the other side parses it: [JSON.stringify] leaves out
    the properties that are [undefined].  The object literals of the source
    have distinct keys. *)
Definition wire (o : Obj) : gmap string JsValue :=
  list_to_map
    (List.filter (fun kv => match kv.2 with JUndefined => false | _ => true end) o).

(** The request Express sees for
    [axios.post(url + path, data, {headers: {'Content-Type', 'x-trace-id'}})];
    [ambient] holds the headers axios and the transport add, [peer] is the
    address the service sees. *)
Definition post (path : string) (ambient : gmap string string) (peer : JsValue)
    (traceId : string) (data : Obj) : PaymentService.Req :=
  {| PaymentService.method := "POST";
     PaymentService.path := path;
     PaymentService.headers :=
       <["x-trace-id" := traceId]> (<["content-type" := "application/json"]> ambient);
     PaymentService.query := JObj [];
     PaymentService.ip := peer;
     PaymentService.body := wire data;
     PaymentService.traceId := JUndefined;
     PaymentService.transactionId := JUndefined |}.

(** What [await axios.post(...)] gives for a response of the service: axios
    resolves on a status of 200 to 299 and rejects on any other. *)
Definition settle (res : PaymentService.Res) : HttpResult :=
  if (200 <=? PaymentService.statusCode res)%Z
     && (PaymentService.statusCode res <? 300)%Z
  then Resolved (match PaymentService.sent res with
                 | Some o => wire o
                 | None => ∅
                 end)
  else Rejected.

(** The call of [makePaymentRequest()] against the service in the world
    [w]: what the awaited [axios.post] comes back with, the generator, the
    calls of [faker] and of [uuidv4] made on the generator's side, and the
    world of the service afterwards.  [makePaymentRequest] of the result
    is the value the function returns. *)
Definition callPayment (src : Sources) (mathRandom : nat -> Q)
    (O : PaymentService.Oracles) (ambient : gmap string string) (peer : JsValue)
    (g : Gen) (k u : nat) (w : PaymentService.World)
    : HttpResult * Gen * nat * nat * PaymentService.World :=
  let traceId := clientUuid src u in
  let '(data, g, k) := generatePaymentRequest src mathRandom g k in
  let req := post "/api/payments" ambient peer traceId data in
  let '(res, w) := PaymentService.serve O PaymentService.PostPayments req w in
  (settle res, g, k, 1 + u, w).

End Client.

(** ** Scripted runs

    Oracles that replay a given list of [Math.random] values, the grid of
    equally spaced draws, and the requests used to run the handlers on
    concrete inputs. *)

Module Trials.
Import PaymentService.

Definition scripted (draws : list Q) : Oracles :=
  {| mathRandom := fun n => nth n draws 0%Q;
     uuidv4 := fun n => "uuid-" +:+ pretty n;
     fakerAccount := fun n => "000000000" +:+ pretty n;
     dateNow := fun n => (1700000000000 + Z.of_nat n)%Z;
     toISOString := fun t => pretty t;
     SERVICE_NAME := "payment-processor" |}.

Definition idle : World :=
  {| randomCalls := 0; uuidCalls := 0; fakerCalls := 0; clockReads := 0; logged := [] |}.

(** The [n] draws [0/n, 1/n, ..., (n-1)/n]. *)
Definition grid (n : nat) : list Q :=
  (fun i => Z.of_nat i # Pos.of_nat n) <$> seq 0 n.

Definition count {A} (p : A -> bool) (l : list A) : nat := length (List.filter p l).

(** The status a payment request is answered with when [Math.random]
    returns [p], [f], [t], [v], [e], in this order. *)
Definition paymentStatusOn (req : Req) (p f t v e : Q) : Z :=
  statusCode (serve (scripted [p; f; t; v; e]) PostPayments req idle).1.

(** Among the [n^3] triples of grid draws for the three flags, the number
    answered with [code]. *)
Definition tally (req : Req) (n : nat) (p e : Q) (code : Z) : nat :=
  count (fun '(f, (t, v)) => (paymentStatusOn req p f t v e =? code)%Z)
        (list_prod (grid n) (list_prod (grid n) (grid n))).

(** The [error] of the body a payment request is answered with. *)
Definition paymentErrorOn (req : Req) (p f t v e : Q) : JsValue :=
  match sent (serve (scripted [p; f; t; v; e]) PostPayments req idle).1 with
  | Some obj => field "error" obj
  | None => JUndefined
  end.

Definition request (m p : string) (hs : gmap string string) (b : gmap string JsValue) : Req :=
  {| method := m; path := p; headers := hs; query := JObj []; ip := JStr "::1";
     body := b; traceId := JUndefined; transactionId := JUndefined |}.

(** [{amount: 10, currency: "USD", customerId: "c1"}] *)
Definition tenDollars : Req :=
  request "POST" "/api/payments" ∅
    (<["amount" := num 10]> (<["currency" := JStr "USD"]> (<["customerId" := JStr "c1"]> ∅))).

(** [{amount: 0, currency: "USD", customerId: "c1"}] *)
Definition zeroAmount : Req :=
  request "POST" "/api/payments" ∅
    (<["amount" := num 0]> (<["currency" := JStr "USD"]> (<["customerId" := JStr "c1"]> ∅))).

(** [{currency: "USD", customerId: "c1"}] *)
Definition noAmount : Req :=
  request "POST" "/api/payments" ∅
    (<["currency" := JStr "USD"]> (<["customerId" := JStr "c1"]> ∅)).

(** [{paymentId: "pmt_x", amount: 5}] *)
Definition fiveBack : Req :=
  request "POST" "/api/refunds" ∅
    (<["paymentId" := JStr "pmt_x"]> (<["amount" := num 5]> ∅)).

Definition lookup : Req :=
  request "GET" "/api/payments/pmt_x" (<["x-trace-id" := "trace-7"]> ∅) ∅.

(** [Math.random] replaying [draws] in the generator. *)
Definition replay (draws : list Q) : nat -> Q := fun n => nth n draws 0%Q.


(** The ids [pmt_0], [pmt_1], ..., [pmt_(n-1)]. *)
Definition someIds (n : nat) : list JsValue :=
  (fun i => JStr ("pmt_" +:+ pretty i)) <$> seq 0 n.

(** A decimal [parseInt]: digits only, NaN otherwise. *)
Fixpoint digits (s : string) (acc : Z) : option Z :=
  match s with
  | EmptyString => Some acc
  | String c rest =>
      let n := Ascii.nat_of_ascii c in
      if ((48 <=? n) && (n <=? 57))%nat
      then digits rest (10 * acc + Z.of_nat (n - 48))%Z
      else None
  end.

Definition parseDecimal (s : string) : option Z :=
  match s with
  | EmptyString => None
  | _ => digits s 0
  end.

End Trials.

(** ** More inputs for concrete runs *)

Module Samples.

Definition sources : Client.Sources :=
  {| Client.fakerUuid := fun n => "6f1c2a9e-0000-4000-8000-00000000000" +:+ pretty n;
     Client.fakerCardNumber := fun _ => "4111-1111-1111-1111";
     Client.fakerCardCVV := fun _ => "123";
     Client.fakerSentence := fun _ => "Voluptas quia ut.";
     Client.clientUuid := fun n => "client-" +:+ pretty n |}.

(** The status a refund request is answered with when [Math.random]
    returns [p] for the delay and [f] for the failure flag. *)
Definition refundStatusOn (req : PaymentService.Req) (p f : Q) : Z :=
  PaymentService.statusCode
    (PaymentService.serve (Trials.scripted [p; f]) PaymentService.PostRefunds
       req Trials.idle).1.

(** [{paymentId: "pmt_x"}] *)
Definition noRefundAmount : PaymentService.Req :=
  Trials.request "POST" "/api/refunds" ∅ (<["paymentId" := JStr "pmt_x"]> ∅).

(** [{amount: 10, currency: "", customerId: "c1"}] *)
Definition emptyCurrency : PaymentService.Req :=
  Trials.request "POST" "/api/payments" ∅
    (<["amount" := num 10]>
       (<["currency" := JStr EmptyString]> (<["customerId" := JStr "c1"]> ∅))).

End Samples.

(** * Properties *)

Import PaymentService Events Trials.

(** ** Comparisons and [Math.floor] *)

Section Numbers.
Open Scope Q_scope.

Lemma Qltb_lt (x y : Q) : Qltb x y = true <-> x < y.
Proof.
  unfold Qltb. rewrite negb_true_iff, <- not_true_iff_false, Qle_bool_iff.
  split; [apply Qnot_le_lt | apply Qlt_not_le].
Qed.

Lemma Qltb_ge (x y : Q) : Qltb x y = false <-> y <= x.
Proof.
  unfold Qltb. rewrite negb_false_iff. apply Qle_bool_iff.
Qed.


(** [Math.floor(r * n)] for a draw [r] of [[0, 1)] is one of [0 .. n-1]. *)
Lemma floor_scaled (r : Q) (n : Z) :
  0 <= r -> r < 1 -> (0 < n)%Z -> (0 <= floor (r * inject_Z n) < n)%Z.
Proof.
  intros H0 H1 Hn.
  assert (0 < inject_Z n) as Hn' by (change 0 with (inject_Z 0); by rewrite <- Zlt_Qlt).
  pose proof (Qfloor_le (r * inject_Z n)) as Hl.
  pose proof (Qlt_floor (r * inject_Z n)) as Hh.
  unfold floor.
  assert (0 <= r * inject_Z n) as Hp by (apply Qmult_le_0_compat; [done | by apply Qlt_le_weak]).
  assert (r * inject_Z n < 1 * inject_Z n) as Hq by (by apply Qmult_lt_compat_r).
  rewrite Qmult_1_l in Hq.
  split.
  - assert (inject_Z (-1) < inject_Z (Qfloor (r * inject_Z n))) as H.
    { rewrite inject_Z_plus in Hh. change (inject_Z (-1)) with (-1).
      change (inject_Z 1) with 1 in Hh. lra. }
    rewrite <- Zlt_Qlt in H. lia.
  - assert (inject_Z (Qfloor (r * inject_Z n)) < inject_Z n) as H
      by (eapply Qle_lt_trans; eauto).
    by rewrite <- Zlt_Qlt in H.
Qed.

End Numbers.

(** ** Runs on concrete inputs *)

(** [{amount: 10, currency: "USD", customerId: "c1"}] with no flag set. *)
Example ten_dollars_completed :
  sent (serve (scripted [0.5; 0.9; 0.9; 0.9]%Q) PostPayments tenDollars idle).1 =
    Some [ ("success", JBool true); ("payment_id", JStr "pmt_0000000000");
           ("amount", num 10); ("currency", JStr "USD");
           ("status", JStr "completed"); ("timestamp", JStr "1700000000001") ].
Proof. vm_compute. reflexivity. Qed.

Example ten_dollars_events :
  typesOf (logged (serve (scripted [0.5; 0.9; 0.9; 0.9]%Q) PostPayments
                     tenDollars idle).2) =
    [JStr "request"; JStr "payment_processing"; JStr "payment_success";
     JStr "response"].
Proof. vm_compute. reflexivity. Qed.

(** The handler's check is [!amount]: an amount of 0 counts as missing. *)
Example zero_amount_is_missing :
  let res := (serve (scripted []) PostPayments zeroAmount idle).1 in
  statusCode res = 400%Z /\
  sent res = Some [ ("success", JBool false);
                    ("error", JStr "Missing required fields for payment") ].
Proof. vm_compute. split; reflexivity. Qed.

(** [{paymentId: "pmt_x", amount: 5}] with the failure flag set. *)
Example five_back_fails :
  let res := (serve (scripted [0.5; 0.1]%Q) PostRefunds fiveBack idle).1 in
  statusCode res = 500%Z /\
  sent res = Some [ ("success", JBool false); ("refund_id", JStr "ref_0000000000");
                    ("payment_id", JStr "pmt_x");
                    ("error", JStr "Refund processor error") ].
Proof. vm_compute. split; reflexivity. Qed.

(** The 8000 triples of the grid of 20 draws, by status. *)
Example tally_on_twenty :
  Z.of_nat <$> [ tally tenDollars 20 0 0 504; tally tenDollars 20 0 0 400;
                 tally tenDollars 20 0 0 500; tally tenDollars 20 0 0 200 ]
  = [400; 760; 1368; 5472]%Z.
Proof. vm_compute. reflexivity. Qed.

(** 103 payments from the start: the first three ids are gone. *)
Example first_three_evicted :
  LoadGenerator.successfulPaymentIds
    (LoadGenerator.payments (replay []) (LoadGenerator.CONFIG parseDecimal ∅)
       None 0 (someIds 103) LoadGenerator.started)
  = drop 3 (someIds 103).
Proof. vm_compute. reflexivity. Qed.

(** Open the binds of the handler monad. *)
Ltac unfold_m :=
  unfold mbind, mret, fmap, M_bind, M_ret, M_fmap in *.

(** Run a handler down to its primitive steps, leaving the comparisons of
    draws and the calls of [Math.floor] as they are. *)
Ltac run_handler :=
  repeat progress
    (unfold json, res_end, isoNow, paymentOutcome; unfold_m;
     cbn -[Qltb floor Z.add Z.sub]).

(** ** Payments with a missing field *)

Section MissingFields.
Context (O : Oracles).

Lemma prop_absent (o : gmap string JsValue) (k : string) :
  o !! k = None -> truthy (prop o k) = false.
Proof. intros H. unfold prop. by rewrite H. Qed.

(** Whatever [res.end] logs is the response event of the request. *)
Lemma res_end_spec (res : Res) (w : World) :
  exists elapsed reads rest,
    res_end O res w =
      ({| statusCode := statusCode res; statusMessage := statusMessage res;
          resHeaders := resHeaders res; sent := sent res;
          responseTime := elapsed; endHook := endHook res |},
       {| randomCalls := randomCalls w; uuidCalls := uuidCalls w;
          fakerCalls := fakerCalls w; clockReads := reads;
          logged := logged w ++ rest |}) /\
    Forall (fun r => field "event_type" (entry r) = JStr "response") rest /\
    (forall start req, endHook res = Some (start, req) ->
       Forall (fun r => field "trace_id" (entry r) = traceId req /\
                        field "transaction_id" (entry r) = transactionId req) rest).
Proof.
  unfold res_end. destruct (endHook res) as [[start req]|] eqn:E.
  - eexists _, _, [_]. split; [cbn; reflexivity|]. split.
    + constructor; [|constructor]. cbn. by destruct (400 <=? statusCode res)%Z.
    + intros ? ? [= <- <-]. constructor; [|constructor].
      cbn. by destruct (400 <=? statusCode res)%Z.
  - exists (responseTime res), (clockReads w), []. split; [|split].
    + cbn. rewrite app_nil_r. by destruct res, w; cbn in *; subst.
    + constructor.
    + discriminate.
Qed.

(** The handler's answer when its check of the three fields fails. *)
Lemma postPayments_falsy (req : Req) (res : Res) (w : World) :
  negb (truthy (prop (body req) "amount"))
  || negb (truthy (prop (body req) "currency"))
  || negb (truthy (prop (body req) "customerId")) = true ->
  exists res' w' ev rest,
    postPayments O req res w = (Sent res', w') /\
    statusCode res' = 400%Z /\
    sent res' = Some [ ("success", JBool false);
                       ("error", JStr "Missing required fields for payment") ] /\
    randomCalls w' = randomCalls w /\
    fakerCalls w' = fakerCalls w /\
    logged w' = (logged w ++ ev :: rest)%list /\
    level ev = Error /\
    field "event_type" (entry ev) = JStr "payment_validation_error" /\
    field "status_code" (entry ev) = num 400 /\
    Forall (fun r => field "event_type" (entry r) = JStr "response") rest.
Proof.
  intros Hcond.
  unfold postPayments. rewrite Hcond. unfold json.
  unfold_m. unfold log at 1.
  match goal with
  | |- context [res_end O ?r ?v] =>
      destruct (res_end_spec r v) as (? & ? & rest & Heq & Hrest & _); rewrite Heq
  end.
  cbn. do 4 eexists. split; [reflexivity|]. cbn.
  rewrite <- app_assoc. repeat split; try reflexivity. exact Hrest.
Qed.

(** C3. A payment request without [amount], [currency] or [customerId] is
    answered at once, inside the handler and not from a timer, with status
    400 and the body [{success: false, error}].  No random number is drawn
    and no payment id is generated; the only events are the validation
    error and the response event of [res.end]. *)
Theorem payment_missing_field_rejected (req : Req) (res : Res) (w : World) :
  body req !! "amount" = None \/ body req !! "currency" = None \/
  body req !! "customerId" = None ->
  exists res' w' ev rest,
    postPayments O req res w = (Sent res', w') /\
    statusCode res' = 400%Z /\
    sent res' = Some [ ("success", JBool false);
                       ("error", JStr "Missing required fields for payment") ] /\
    randomCalls w' = randomCalls w /\
    fakerCalls w' = fakerCalls w /\
    logged w' = (logged w ++ ev :: rest)%list /\
    level ev = Error /\
    field "event_type" (entry ev) = JStr "payment_validation_error" /\
    field "status_code" (entry ev) = num 400 /\
    Forall (fun r => field "event_type" (entry r) = JStr "response") rest.
Proof.
  intros Habsent. apply postPayments_falsy.
  destruct Habsent as [H | [H | H]]; apply prop_absent in H; rewrite H; cbn;
    rewrite ?orb_true_r; reflexivity.
Qed.

End MissingFields.

(** The request [{currency: "USD", customerId: "c1"}] is rejected at once. *)
Lemma payment_missing_field_rejected_witness :
  body noAmount !! "amount" = None /\
  exists res' w',
    postPayments (scripted []) noAmount freshRes idle = (Sent res', w') /\
    statusCode res' = 400%Z /\
    randomCalls w' = randomCalls idle /\
    fakerCalls w' = fakerCalls idle.
Proof.
  split; [reflexivity|].
  destruct (payment_missing_field_rejected (scripted []) noAmount freshRes idle)
    as (res' & w' & ev & rest & H1 & H2 & _ & H4 & H5 & _).
  - left. reflexivity.
  - exists res', w'. repeat split; assumption.
Defined.

(** ** Outcome of a valid payment *)

Section PaymentOutcome.
Context (O : Oracles).

Lemma added_app (w w' : World) (evs : list LogRecord) :
  logged w' = (logged w ++ evs)%list -> added w w' = evs.
Proof. intros H. unfold added. rewrite H. by rewrite drop_app_length. Qed.

Lemma serve_payment (req : Req) (w : World) :
  truthy (prop (body req) "amount") = true ->
  truthy (prop (body req) "currency") = true ->
  truthy (prop (body req) "customerId") = true ->
  let f := mathRandom O (1 + randomCalls w) in
  let t := mathRandom O (2 + randomCalls w) in
  let v := mathRandom O (3 + randomCalls w) in
  let out := serve O PostPayments req w in
  statusCode out.1 =
    (if Qltb t 0.05 then 504 else if Qltb v 0.1 then 400
     else if Qltb f 0.2 then 500 else 200)%Z /\
  typesOf (added w out.2) =
    [ JStr "request"; JStr "payment_processing";
      JStr (if Qltb t 0.05 then "payment_timeout"
            else if Qltb v 0.1 then "payment_validation_error"
            else if Qltb f 0.2 then "payment_failure" else "payment_success");
      JStr "response" ].
Proof.
  intros Ha Hc Hi f t v out. subst f t v out.
  unfold serve, accept, requestId, responseTimer, dispatch, postPayments, fire.
  run_handler.
  destruct (truthy (header req "x-trace-id")); run_handler;
    rewrite Ha, Hc, Hi; run_handler.
  all: destruct (Qltb (mathRandom O (S (S (randomCalls w)))) 0.05);
    [|destruct (Qltb (mathRandom O (S (S (S (randomCalls w))))) 0.1);
      [|destruct (Qltb (mathRandom O (S (randomCalls w))) 0.2)]].
  all: run_handler.
  all: split; [reflexivity|].
  all: unfold added; cbn -[Qltb floor Z.add Z.sub].
  all: rewrite <- ?app_assoc; rewrite drop_app_length; reflexivity.
Qed.

End PaymentOutcome.

(** ** Counting draws on a grid *)

Section Counting.
Local Open Scope nat_scope.

Lemma count_app {A} (p : A -> bool) (l1 l2 : list A) :
  count p (l1 ++ l2) = count p l1 + count p l2.
Proof. unfold count. by rewrite List.filter_app, length_app. Qed.

Lemma count_ext {A} (p q : A -> bool) (l : list A) :
  (forall x, In x l -> p x = q x) -> count p l = count q l.
Proof.
  intros H. unfold count. f_equal. by apply List.filter_ext_in.
Qed.

Lemma count_map {A B} (f : A -> B) (p : B -> bool) (l : list A) :
  count p (List.map f l) = count (fun x => p (f x)) l.
Proof.
  unfold count. induction l as [|x l IH]; [done|].
  cbn. destruct (p (f x)); cbn; by rewrite IH.
Qed.

Lemma count_all {A} (l : list A) : count (fun _ => true) l = length l.
Proof. unfold count. induction l; cbn; congruence. Qed.

Lemma count_none {A} (l : list A) : count (fun _ => false) l = 0.
Proof. unfold count. induction l; cbn; congruence. Qed.

Lemma count_negb {A} (p : A -> bool) (l : list A) :
  count (fun x => negb (p x)) l + count p l = length l.
Proof.
  unfold count. induction l as [|x l IH]; [done|].
  cbn. destruct (p x); cbn; lia.
Qed.

Lemma count_cons {A} (p : A -> bool) (x : A) (l : list A) :
  count p (x :: l) = (if p x then 1 else 0) + count p l.
Proof. unfold count. cbn. by destruct (p x). Qed.

Lemma count_prod {A B} (pa : A -> bool) (pb : B -> bool)
    (la : list A) (lb : list B) :
  count (fun '(a, b) => pa a && pb b) (list_prod la lb) = count pa la * count pb lb.
Proof.
  induction la as [|a la IH]; [done|].
  cbn [list_prod]. rewrite count_app, IH, count_map, count_cons.
  destruct (pa a); cbn [andb].
  - rewrite (count_ext _ pb) by done. lia.
  - rewrite count_none. lia.
Qed.

Lemma count_below (m n : nat) :
  count (fun i => i <? m) (seq 0 n) = Nat.min m n.
Proof.
  induction n as [|n IH]; [by rewrite Nat.min_0_r|].
  rewrite seq_S, count_app, IH, count_cons. cbn [Nat.add].
  change (count _ []) with 0.
  destruct (Nat.ltb_spec n m); lia.
Qed.

Lemma grid_length (n : nat) : length (grid n) = n.
Proof. unfold grid. by rewrite length_fmap, length_seq. Qed.

Lemma Zpos_of_nat (n : nat) : 0 < n -> Z.pos (Pos.of_nat n) = Z.of_nat n.
Proof. intros H. by rewrite <- positive_nat_Z, Nat2Pos.id by lia. Qed.

(** On the grid of [m * k] draws, exactly [j * k] lie below [j / m]. *)
Lemma count_grid_below (j m k : nat) (c : Q) :
  0 < m -> j <= m -> (c == Z.of_nat j # Pos.of_nat m)%Q ->
  count (fun q => Qltb q c) (grid (m * k)) = j * k.
Proof.
  intros Hm Hj Hc. unfold grid.
  change (@fmap list _) with (@List.map) at 1. rewrite count_map.
  destruct k as [|k]; [by rewrite Nat.mul_0_r, Nat.mul_0_r|].
  rewrite (count_ext _ (fun i => i <? j * S k)).
  - rewrite count_below. nia.
  - intros i _.
    destruct (Nat.ltb_spec i (j * S k)) as [Hlt | Hge].
    + apply Qltb_lt. rewrite Hc. unfold Qlt. cbn [Qnum Qden].
      rewrite !Zpos_of_nat by lia. nia.
    + apply Qltb_ge. rewrite Hc. unfold Qle. cbn [Qnum Qden].
      rewrite !Zpos_of_nat by lia. nia.
Qed.

End Counting.

(** ** The four outcomes of a payment and their shares *)

Section Shares.
Local Open Scope nat_scope.

Lemma count_prod3 {A} (pa pb pc : A -> bool) (la lb lc : list A) :
  count (fun '(a, (b, c)) => pa a && (pb b && pc c))
        (list_prod la (list_prod lb lc))
  = count pa la * (count pb lb * count pc lc).
Proof.
  rewrite <- (count_prod pb pc), <- count_prod.
  apply count_ext. by intros [a [b c]] _.
Qed.

Lemma paymentStatusOn_selected (req : Req) (p f t v e : Q) :
  truthy (prop (body req) "amount") = true ->
  truthy (prop (body req) "currency") = true ->
  truthy (prop (body req) "customerId") = true ->
  paymentStatusOn req p f t v e =
    (if Qltb t 0.05 then 504 else if Qltb v 0.1 then 400
     else if Qltb f 0.2 then 500 else 200)%Z.
Proof.
  intros Ha Hc Hi.
  exact (proj1 (serve_payment (scripted [p; f; t; v; e]) req idle Ha Hc Hi)).
Qed.

(** How many of the triples of grid draws are answered with each status,
    on a grid of [20 * k] draws. *)
Lemma tally_shares (req : Req) (k : nat) (p e : Q) :
  truthy (prop (body req) "amount") = true ->
  truthy (prop (body req) "currency") = true ->
  truthy (prop (body req) "customerId") = true ->
  tally req (20 * k) p e 504 = 20 * k * (k * (20 * k)) /\
  tally req (20 * k) p e 400 = 20 * k * (19 * k * (2 * k)) /\
  tally req (20 * k) p e 500 = 4 * k * (19 * k * (18 * k)) /\
  tally req (20 * k) p e 200 = 16 * k * (19 * k * (18 * k)).
Proof.
  intros Ha Hc Hi.
  assert (count (fun q => Qltb q 0.05) (grid (20 * k)) = 1 * k) as Ht
    by (apply (count_grid_below 1 20); [lia | lia | reflexivity]).
  assert (count (fun q => Qltb q 0.1) (grid (20 * k)) = 2 * k) as Hv
    by (apply (count_grid_below 2 20); [lia | lia | reflexivity]).
  assert (count (fun q => Qltb q 0.2) (grid (20 * k)) = 4 * k) as Hf
    by (apply (count_grid_below 4 20); [lia | lia | reflexivity]).
  pose proof (count_negb (fun q => Qltb q 0.05) (grid (20 * k))) as Ht'.
  pose proof (count_negb (fun q => Qltb q 0.1) (grid (20 * k))) as Hv'.
  pose proof (count_negb (fun q => Qltb q 0.2) (grid (20 * k))) as Hf'.
  rewrite grid_length in Ht', Hv', Hf'.
  pose proof (count_all (grid (20 * k))) as Hall. rewrite grid_length in Hall.
  unfold tally. repeat split.
  - rewrite (count_ext _ (fun '(f, (t, v)) =>
              (fun _ => true) f && ((fun q => Qltb q 0.05) t && (fun _ => true) v))).
    + rewrite count_prod3, Hall, Ht. lia.
    + intros [f [t v]] _. rewrite paymentStatusOn_selected by done.
      by destruct (Qltb t 0.05), (Qltb v 0.1), (Qltb f 0.2).
  - rewrite (count_ext _ (fun '(f, (t, v)) =>
              (fun _ => true) f
              && ((fun q => negb (Qltb q 0.05)) t && (fun q => Qltb q 0.1) v))).
    + rewrite count_prod3, Hall, Hv. nia.
    + intros [f [t v]] _. rewrite paymentStatusOn_selected by done.
      by destruct (Qltb t 0.05), (Qltb v 0.1), (Qltb f 0.2).
  - rewrite (count_ext _ (fun '(f, (t, v)) =>
              (fun q => Qltb q 0.2) f
              && ((fun q => negb (Qltb q 0.05)) t && (fun q => negb (Qltb q 0.1)) v))).
    + rewrite count_prod3, Hf. nia.
    + intros [f [t v]] _. rewrite paymentStatusOn_selected by done.
      by destruct (Qltb t 0.05), (Qltb v 0.1), (Qltb f 0.2).
  - rewrite (count_ext _ (fun '(f, (t, v)) =>
              (fun q => negb (Qltb q 0.2)) f
              && ((fun q => negb (Qltb q 0.05)) t && (fun q => negb (Qltb q 0.1)) v))).
    + rewrite count_prod3. nia.
    + intros [f [t v]] _. rewrite paymentStatusOn_selected by done.
      by destruct (Qltb t 0.05), (Qltb v 0.1), (Qltb f 0.2).
Qed.

End Shares.

Section Priority.
Local Open Scope Q_scope.

(** C1. A payment request whose [amount], [currency] and [customerId] pass
    the handler's check is answered by the first test that succeeds, in the
    order timeout (draw below 0.05, status 504), validation error (draw below
    0.10, status 400), processor failure (draw below 0.20, status 500), and
    success (status 200) when none does.  One outcome event is logged,
    between the processing event and the response event.  With the three
    draws on a grid of [n = 20 k] equally spaced values, the [n^3] triples
    split 5%, 9.5%, 17.1% and 68.4% over the four outcomes. *)
Theorem payment_outcome_by_priority (O : Oracles) (req : Req) (w : World) :
  truthy (prop (body req) "amount") = true ->
  truthy (prop (body req) "currency") = true ->
  truthy (prop (body req) "customerId") = true ->
  let f := mathRandom O (1 + randomCalls w) in
  let t := mathRandom O (2 + randomCalls w) in
  let v := mathRandom O (3 + randomCalls w) in
  let out := serve O PostPayments req w in
  (t < 0.05 ->
   statusCode out.1 = 504%Z /\
   typesOf (added w out.2) =
     [JStr "request"; JStr "payment_processing"; JStr "payment_timeout";
      JStr "response"]) /\
  (0.05 <= t -> v < 0.1 ->
   statusCode out.1 = 400%Z /\
   typesOf (added w out.2) =
     [JStr "request"; JStr "payment_processing"; JStr "payment_validation_error";
      JStr "response"]) /\
  (0.05 <= t -> 0.1 <= v -> f < 0.2 ->
   statusCode out.1 = 500%Z /\
   typesOf (added w out.2) =
     [JStr "request"; JStr "payment_processing"; JStr "payment_failure";
      JStr "response"]) /\
  (0.05 <= t -> 0.1 <= v -> 0.2 <= f ->
   statusCode out.1 = 200%Z /\
   typesOf (added w out.2) =
     [JStr "request"; JStr "payment_processing"; JStr "payment_success";
      JStr "response"]) /\
  forall (k : nat) (p e : Q),
    let n := (20 * k)%nat in
    (1000 * tally req n p e 504 = 50 * (n * n * n))%nat /\
    (1000 * tally req n p e 400 = 95 * (n * n * n))%nat /\
    (1000 * tally req n p e 500 = 171 * (n * n * n))%nat /\
    (1000 * tally req n p e 200 = 684 * (n * n * n))%nat.
Proof.
  intros Ha Hc Hi f t v out.
  destruct (serve_payment O req w Ha Hc Hi) as [Hs He].
  fold f t v out in Hs, He.
  split; [intros Ht | split; [intros Ht Hv | split; [intros Ht Hv Hf |
    split; [intros Ht Hv Hf | intros k p e n]]]].
  - apply Qltb_lt in Ht. by rewrite Hs, He, Ht.
  - apply Qltb_ge in Ht. apply Qltb_lt in Hv. by rewrite Hs, He, Ht, Hv.
  - apply Qltb_ge in Ht, Hv. apply Qltb_lt in Hf. by rewrite Hs, He, Ht, Hv, Hf.
  - apply Qltb_ge in Ht, Hv, Hf. by rewrite Hs, He, Ht, Hv, Hf.
  - subst n.
    destruct (tally_shares req k p e Ha Hc Hi) as (-> & -> & -> & ->).
    repeat split; nia.
Qed.

End Priority.

(** [{amount: 10, currency: "USD", customerId: "c1"}] with the timeout draw
    at 0.01: the answer is 504 whatever the other draws are. *)
Lemma payment_outcome_by_priority_witness :
  truthy (prop (body tenDollars) "amount") = true /\
  truthy (prop (body tenDollars) "currency") = true /\
  truthy (prop (body tenDollars) "customerId") = true /\
  statusCode (serve (scripted [0.5; 0.1; 0.01; 0.05; 0.7]%Q) PostPayments
                tenDollars idle).1 = 504%Z /\
  (1000 * tally tenDollars (20 * 1) 0 0 400
   = 95 * (20 * 1 * (20 * 1) * (20 * 1)))%nat.
Proof.
  pose proof (payment_outcome_by_priority
                (scripted [0.5; 0.1; 0.01; 0.05; 0.7]%Q) tenDollars idle
                eq_refl eq_refl eq_refl) as H.
  cbv zeta in H. destruct H as (Htimeout & _ & _ & _ & Hshares).
  split; [reflexivity|]. split; [reflexivity|]. split; [reflexivity|]. split.
  - apply Htimeout. reflexivity.
  - exact (proj1 (proj2 (Hshares 1%nat 0%Q 0%Q))).
Defined.

(** ** The reason of a simulated validation error *)

Section ValidationReason.
Local Open Scope Q_scope.

Lemma serve_payment_invalid (O : Oracles) (req : Req) (w : World) :
  truthy (prop (body req) "amount") = true ->
  truthy (prop (body req) "currency") = true ->
  truthy (prop (body req) "customerId") = true ->
  Qltb (mathRandom O (2 + randomCalls w)) 0.05 = false ->
  Qltb (mathRandom O (3 + randomCalls w)) 0.1 = true ->
  let reason :=
    if Qltb (mathRandom O (4 + randomCalls w)) 0.5
    then "Invalid card details" else "Insufficient funds" in
  let out := serve O PostPayments req w in
  statusCode out.1 = 400%Z /\
  sent out.1 = Some [ ("success", JBool false);
                      ("payment_id", JStr ("pmt_" +:+ fakerAccount O (fakerCalls w)));
                      ("error", JStr reason) ] /\
  exists ev,
    added w out.2 !! 2%nat = Some ev /\
    level ev = Error /\
    field "event_type" (entry ev) = JStr "payment_validation_error" /\
    field "status_code" (entry ev) = num 400 /\
    field "error" (entry ev) = JStr reason.
Proof.
  intros Ha Hc Hi Ht Hv reason out. subst reason out.
  unfold serve, accept, requestId, responseTimer, dispatch, postPayments, fire.
  run_handler.
  destruct (truthy (header req "x-trace-id")); run_handler;
    rewrite Ha, Hc, Hi; run_handler.
  all: cbn in Ht, Hv; rewrite Ht, Hv; run_handler.
  all: split; [reflexivity|]; split; [reflexivity|].
  all: eexists; split;
    [ unfold added; cbn -[Qltb floor Z.add Z.sub];
      rewrite <- ?app_assoc; rewrite drop_app_length; reflexivity
    | by repeat split ].
Qed.

(** C8, as the code has it.  In the validation-error branch the status is
    400 and the reason, in the body and in the error event alike, is
    ["Invalid card details"] when the next draw is below 0.5 and
    ["Insufficient funds"] otherwise; on a grid of [2 k] draws each reason is
    given by exactly [k] of them. *)
Theorem validation_reason_one_of_two (O : Oracles) (req : Req) (w : World) :
  truthy (prop (body req) "amount") = true ->
  truthy (prop (body req) "currency") = true ->
  truthy (prop (body req) "customerId") = true ->
  0.05 <= mathRandom O (2 + randomCalls w) ->
  mathRandom O (3 + randomCalls w) < 0.1 ->
  let e := mathRandom O (4 + randomCalls w) in
  let out := serve O PostPayments req w in
  exists reason ev,
    (e < 0.5 -> reason = "Invalid card details") /\
    (0.5 <= e -> reason = "Insufficient funds") /\
    statusCode out.1 = 400%Z /\
    (exists obj, sent out.1 = Some obj /\ field "error" obj = JStr reason) /\
    added w out.2 !! 2%nat = Some ev /\
    level ev = Error /\
    field "event_type" (entry ev) = JStr "payment_validation_error" /\
    field "error" (entry ev) = JStr reason /\
    forall (k : nat) (p f t v : Q),
      0.05 <= t -> v < 0.1 ->
      count (fun e => isStr "Invalid card details"
                        (paymentErrorOn req p f t v e)) (grid (2 * k)) = k /\
      count (fun e => isStr "Insufficient funds"
                        (paymentErrorOn req p f t v e)) (grid (2 * k)) = k.
Proof.
  intros Ha Hc Hi Ht Hv e out.
  apply Qltb_ge in Ht. apply Qltb_lt in Hv.
  destruct (serve_payment_invalid O req w Ha Hc Hi Ht Hv) as (Hs & Hb & ev & He).
  fold e out in Hs, Hb, He.
  exists (if Qltb e 0.5 then "Invalid card details" else "Insufficient funds"), ev.
  split; [intros H; apply Qltb_lt in H; by rewrite H|].
  split; [intros H; apply Qltb_ge in H; by rewrite H|].
  split; [exact Hs|].
  split; [eexists; split; [exact Hb|reflexivity]|].
  destruct He as (He1 & He2 & He3 & _ & He5).
  do 4 (split; [assumption|]).
  intros k p f t v Ht' Hv'.
  apply Qltb_ge in Ht'. apply Qltb_lt in Hv'.
  assert (forall d, paymentErrorOn req p f t v d
                    = JStr (if Qltb d 0.5 then "Invalid card details"
                            else "Insufficient funds")) as Hon.
  { intros d. unfold paymentErrorOn.
    destruct (serve_payment_invalid (scripted [p; f; t; v; d]) req idle
                Ha Hc Hi Ht' Hv') as (_ & Hsent & _).
    by rewrite Hsent. }
  pose proof (count_grid_below 1 2 k 0.5 ltac:(lia) ltac:(lia) ltac:(reflexivity)) as Hlow.
  pose proof (count_negb (fun q => Qltb q 0.5) (grid (2 * k))) as Hhigh.
  rewrite grid_length in Hhigh.
  split.
  - rewrite (count_ext _ (fun q => Qltb q 0.5)); [lia|].
    intros d _. rewrite Hon. by destruct (Qltb d 0.5).
  - rewrite (count_ext _ (fun q => negb (Qltb q 0.5))); [lia|].
    intros d _. rewrite Hon. by destruct (Qltb d 0.5).
Qed.

End ValidationReason.

(** C8, as it is worded.  With the draws 0.5, 0.9, 0.9, 0.01 and 0 the
    request [{amount: 10, currency: "USD", customerId: "c1"}] takes the
    validation-error branch, and the reason it is answered with is neither
    ["invalid_card_details"] nor ["insufficient_funds"]. *)
Lemma validation_reason_is_a_sentence :
  paymentStatusOn tenDollars 0.5 0.9 0.9 0.01 0 = 400%Z /\
  paymentErrorOn tenDollars 0.5 0.9 0.9 0.01 0 = JStr "Invalid card details" /\
  ~ (paymentErrorOn tenDollars 0.5 0.9 0.9 0.01 0 = JStr "invalid_card_details" \/
     paymentErrorOn tenDollars 0.5 0.9 0.9 0.01 0 = JStr "insufficient_funds").
Proof.
  assert (paymentErrorOn tenDollars 0.5 0.9 0.9 0.01 0 = JStr "Invalid card details")
    as H by (vm_compute; reflexivity).
  split; [vm_compute; reflexivity|]. split; [exact H|].
  rewrite H. intros [[=] | [=]].
Qed.

Lemma validation_reason_one_of_two_witness :
  (0.05 <= 0.9)%Q /\ (0.01 < 0.1)%Q /\
  exists reason,
    reason = "Insufficient funds" /\
    paymentErrorOn tenDollars 0.5 0.9 0.9 0.01 0.7 = JStr reason.
Proof.
  split; [discriminate|]. split; [reflexivity|].
  destruct (validation_reason_one_of_two
              (scripted [0.5; 0.9; 0.9; 0.01; 0.7]%Q) tenDollars idle
              eq_refl eq_refl eq_refl)
    as (reason & ev & _ & Hhigh & _ & (obj & Hsent & Herr) & _).
  - discriminate.
  - reflexivity.
  - exists reason. split.
    + apply Hhigh. discriminate.
    + unfold paymentErrorOn. rewrite Hsent. exact Herr.
Defined.

(** ** Simulated delays *)

Section Delays.
Context (O : Oracles).
Local Open Scope Q_scope.

Lemma postPayments_valid (req : Req) (res : Res) (w : World) :
  truthy (prop (body req) "amount") = true ->
  truthy (prop (body req) "currency") = true ->
  truthy (prop (body req) "customerId") = true ->
  exists w',
    postPayments O req res w =
      (Timer ((floor (mathRandom O (randomCalls w) * 1950) + 50)%Z)
         (paymentOutcome O req res
            (prop (body req) "amount") (prop (body req) "currency")
            (prop (body req) "customerId")
            ("pmt_" +:+ fakerAccount O (fakerCalls w))
            ((floor (mathRandom O (randomCalls w) * 1950) + 50)%Z)
            (Qltb (mathRandom O (1 + randomCalls w)) 0.2)
            (Qltb (mathRandom O (2 + randomCalls w)) 0.05)
            (Qltb (mathRandom O (3 + randomCalls w)) 0.1)), w') /\
    typesOf (added w w') = [JStr "payment_processing"].
Proof.
  intros Ha Hc Hi. unfold postPayments. rewrite Ha, Hc, Hi.
  unfold_m. cbn -[Qltb floor Z.add]. eexists. split; [reflexivity|].
  unfold added. cbn. by rewrite drop_app_length.
Qed.


Lemma postRefunds_valid (req : Req) (res : Res) (w : World) :
  truthy (prop (body req) "paymentId") = true ->
  truthy (prop (body req) "amount") = true ->
  exists callback w',
    postRefunds O req res w =
      (Timer ((floor (mathRandom O (randomCalls w) * 1500) + 100)%Z) callback, w') /\
    typesOf (added w w') = [JStr "refund_processing"] /\
    forall w2, exists ev rest,
      added w2 (callback w2).2 = ev :: rest /\
      field "processing_time" (entry ev)
        = num ((floor (mathRandom O (randomCalls w) * 1500) + 100)%Z) /\
      Forall (fun r => field "event_type" (entry r) = JStr "response") rest.
Proof.
  intros Hp Ha. unfold postRefunds. rewrite Hp, Ha.
  unfold_m. cbn -[Qltb floor Z.add]. eexists _, _. split; [reflexivity|].
  split; [unfold added; cbn; by rewrite drop_app_length|].
  intros w2.
  unfold json, isoNow. unfold_m.
  destruct (Qltb (mathRandom O (S (randomCalls w))) 0.15);
    cbn -[Qltb res_end floor Z.add].
  all:
    match goal with
    | |- context [res_end O ?r ?v] =>
        destruct (res_end_spec O r v) as (? & ? & rest & Heq & Hrest & _); rewrite Heq
    end.
  all: eexists _, rest; (split; [|split; [|exact Hrest]]).
  all: try (unfold added; cbn [snd logged]; rewrite <- app_assoc;
            rewrite drop_app_length; reflexivity).
  all: reflexivity.
Qed.


End Delays.

Section DelayRange.
Local Open Scope Q_scope.


End DelayRange.



(** ** Events and headers of one request *)

Section Emits.
Context (O : Oracles) (P : LogRecord -> Prop).

Lemma emits_ret {A} (Q : A -> Prop) (a : A) : Q a -> emits P Q (mret a).
Proof. intros H w. exists []. by rewrite app_nil_r. Qed.

Lemma emits_bind {A B} (Q : A -> Prop) (R : B -> Prop) (m : M A) (k : A -> M B) :
  emits P Q m -> (forall a, Q a -> emits P R (k a)) -> emits P R (m ≫= k).
Proof.
  intros Hm Hk w. destruct (Hm w) as (evs1 & Hl1 & Hp1 & Hq).
  unfold mbind, M_bind. destruct (m w) as [a w1]. cbn in *.
  destruct (Hk a Hq w1) as (evs2 & Hl2 & Hp2 & Hr).
  exists (evs1 ++ evs2)%list. rewrite Hl2, Hl1, app_assoc.
  split; [done|]. split; [by apply Forall_app|done].
Qed.

Lemma emits_fmap {A B} (Q : B -> Prop) (f : A -> B) (m : M A) :
  emits P (fun a => Q (f a)) m -> emits P Q (f <$> m).
Proof.
  intros Hm w. destruct (Hm w) as (evs & Hl & Hp & Hq).
  unfold fmap, M_fmap. destruct (m w) as [a w1]. by exists evs.
Qed.

Lemma emits_weaken {A} (Q Q' : A -> Prop) (m : M A) :
  emits P Q m -> (forall a, Q a -> Q' a) -> emits P Q' m.
Proof.
  intros Hm HQ w. destruct (Hm w) as (evs & Hl & Hp & Hq). exists evs. auto.
Qed.

Lemma emits_log (l : Level) (o : Obj) :
  P {| level := l; entry := o |} -> emits P (fun _ => True) (log l o).
Proof. intros H w. exists [{| level := l; entry := o |}]. cbn. auto. Qed.

Lemma emits_math_random : emits P (fun _ => True) (math_random O).
Proof. intros w. exists []. cbn. by rewrite app_nil_r. Qed.

Lemma emits_uuid : emits P (fun _ => True) (uuid O).
Proof. intros w. exists []. cbn. by rewrite app_nil_r. Qed.

Lemma emits_faker_account : emits P (fun _ => True) (faker_account O).
Proof. intros w. exists []. cbn. by rewrite app_nil_r. Qed.

Lemma emits_date_now : emits P (fun _ => True) (date_now O).
Proof. intros w. exists []. cbn. by rewrite app_nil_r. Qed.

Lemma emits_isoNow : emits P (fun _ => True) (isoNow O).
Proof.
  unfold isoNow. eapply emits_bind; [apply emits_date_now|].
  intros. by apply emits_ret.
Qed.

End Emits.


Section Correlation.
Context (O : Oracles).

Lemma emits_res_end (req : Req) (res : Res) :
  hooked req res ->
  emits (tagged (traceId req) (transactionId req))
        (fun out => resHeaders out = resHeaders res) (res_end O res).
Proof.
  intros Hh w.
  destruct (res_end_spec O res w) as (? & ? & rest & Heq & _ & Htag).
  exists rest. rewrite Heq. cbn. split; [done|]. split; [|done].
  destruct (endHook res) as [[start rq]|] eqn:E.
  - specialize (Htag start rq eq_refl). by rewrite (Hh start rq E) in Htag.
  - unfold res_end in Heq. rewrite E in Heq.
    apply (f_equal (fun x => logged x.2)) in Heq. cbn in Heq.
    assert (rest = []) as -> by (by apply (app_inv_head (logged w)); rewrite app_nil_r).
    constructor.
Qed.

Lemma emits_json (req : Req) (res : Res) (obj : Obj) :
  hooked req res ->
  emits (tagged (traceId req) (transactionId req))
        (fun out => resHeaders out = resHeaders res) (json O res obj).
Proof.
  intros Hh. unfold json.
  eapply emits_weaken; [eapply (emits_res_end req); exact Hh | done].
Qed.

Lemma hooked_status (req : Req) (res : Res) (code : Z) :
  hooked req res -> hooked req (status res code).
Proof. intros H. exact H. Qed.

End Correlation.

(** The events of one primitive step of a handler. *)
Ltac emit_prim :=
  lazymatch goal with
  | |- emits _ _ (log _ _) => apply emits_log; split; reflexivity
  | |- emits _ _ (math_random _) => apply emits_math_random
  | |- emits _ _ (faker_account _) => apply emits_faker_account
  | |- emits _ _ (isoNow _) => apply emits_isoNow
  | |- emits _ _ (json _ _ _) =>
      eapply emits_json; first [eassumption | apply hooked_status; eassumption]
  end.

(** One step of a handler: a branch, a bind, a return or a final call. *)
Ltac emit_step :=
  lazymatch goal with
  | |- emits _ _ (if ?c then _ else _) => destruct c
  | |- emits _ _ (_ ≫= _) => eapply emits_bind; [emit_prim | intros ? ?]
  | |- emits _ _ (mret _) => apply emits_ret
  | |- emits _ _ (json _ _ _) =>
      eapply emits_weaken;
        [ eapply emits_json; first [eassumption | apply hooked_status; eassumption]
        | done ]
  end.

Ltac emit_all := repeat emit_step.

Section Routes.
Context (O : Oracles).

Lemma dispatch_tagged (route : Route) (req : Req) (res : Res) :
  hooked req res ->
  emits (tagged (traceId req) (transactionId req)) (answers req res)
        (dispatch O route req res).
Proof.
  intros Hh.
  destruct route; cbn [dispatch];
    unfold postPayments, getPaymentStatus, postRefunds, getHealth, getRoot.
  all: emit_all.
  all: unfold answers, fire.
  all: unfold paymentOutcome.
  all: emit_all.
  all: try done.
Qed.

End Routes.

Section CorrelationIds.
Context (O : Oracles).

(** The two middlewares: the ids they choose, the headers they set, the
    event they log, and the state they hand to the route handler. *)
Lemma middlewares_spec (req : Req) (w : World) :
  let fromHeader := truthy (header req "x-trace-id") in
  let trace := if fromHeader then header req "x-trace-id"
               else JStr (uuidv4 O (uuidCalls w)) in
  let n := if fromHeader then uuidCalls w else S (uuidCalls w) in
  let txn := JStr (uuidv4 O n) in
  exists req' res' w1 ev,
    (requestId O req freshRes ≫= fun '(rq, rs) =>
       responseTimer O rq rs ≫= fun rs => mret (rq, rs)) w = ((req', res'), w1) /\
    traceId req' = trace /\ transactionId req' = txn /\
    method req' = method req /\ path req' = path req /\
    body req' = body req /\ headers req' = headers req /\
    hooked req' res' /\
    resHeaders res' !! "x-trace-id" = Some trace /\
    resHeaders res' !! "x-transaction-id" = Some txn /\
    uuidCalls w1 = S n /\ randomCalls w1 = randomCalls w /\
    logged w1 = (logged w ++ [ev])%list /\ tagged trace txn ev /\
    field "event_type" (entry ev) = JStr "request".
Proof.
  intros fromHeader trace n txn. subst fromHeader trace n txn.
  unfold requestId, responseTimer. unfold_m.
  destruct (truthy (header req "x-trace-id")); cbn.
  all: eexists _, _, _, _; split; [reflexivity|]; cbn.
  all: repeat (split; [try reflexivity|]); try reflexivity.
  all: try (intros start rq [= _ <-]; reflexivity).
Qed.

End CorrelationIds.

Section CorrelationTheorem.
Context (O : Oracles).

Lemma accept_unfold (route : Route) (req : Req) (w : World) :
  accept O route req w =
    let '((req', res'), w1) :=
      (requestId O req freshRes ≫= fun '(rq, rs) =>
         responseTimer O rq rs ≫= fun rs => mret (rq, rs)) w in
    let '(reply, w2) := dispatch O route req' res' w1 in
    ((req', reply), w2).
Proof.
  unfold accept. unfold_m.
  destruct (requestId O req freshRes w) as [[rq rs] w0].
  destruct (responseTimer O rq rs w0) as [rs' w1].
  by destruct (dispatch O route rq rs' w1).
Qed.

(** C7. For every request the first middleware takes [traceId] from the
    [x-trace-id] header when the header is there and not empty, and from a
    new call of [uuidv4] otherwise; [transactionId] always comes from a new
    call of [uuidv4], one that no earlier request has consumed.  Both are
    set as the response headers [x-trace-id] and [x-transaction-id], and
    every event logged for the request, by the middlewares, by the route
    handler and by its timer callback whenever that fires, carries both. *)
Theorem correlation_ids_attached (route : Route) (req : Req) (w : World) :
  let inbound :=
    match headers req !! "x-trace-id" with
    | Some s => if String.eqb s EmptyString then None else Some s
    | None => None
    end in
  let trace := match inbound with
               | Some s => JStr s
               | None => JStr (uuidv4 O (uuidCalls w))
               end in
  let n := match inbound with
           | Some _ => uuidCalls w
           | None => S (uuidCalls w)
           end in
  let txn := JStr (uuidv4 O n) in
  exists req' reply w',
    accept O route req w = ((req', reply), w') /\
    traceId req' = trace /\
    transactionId req' = txn /\
    (uuidCalls w <= n)%nat /\ uuidCalls w' = S n /\
    (exists ev rest, added w w' = ev :: rest /\
                     field "event_type" (entry ev) = JStr "request") /\
    Forall (tagged trace txn) (added w w') /\
    forall w2,
      resHeaders (fire reply w2).1 !! "x-trace-id" = Some trace /\
      resHeaders (fire reply w2).1 !! "x-transaction-id" = Some txn /\
      Forall (tagged trace txn) (added w2 (fire reply w2).2).
Proof.
  intros inbound trace n txn.
  destruct (middlewares_spec O req w)
    as (req' & res' & w1 & ev & Hmw & Htr & Htx & _ & _ & _ & _ & Hh & Hh1 & Hh2
        & Hu & _ & Hl & Hev & Hty).
  assert ((if truthy (header req "x-trace-id") then header req "x-trace-id"
           else JStr (uuidv4 O (uuidCalls w))) = trace
          /\ (if truthy (header req "x-trace-id") then uuidCalls w
              else S (uuidCalls w)) = n) as [Etr En].
  { subst trace n inbound. unfold header.
    destruct (headers req !! "x-trace-id") as [s|]; [|done].
    cbn. by destruct (String.eqb s EmptyString). }
  rewrite En in Htx, Hh2, Hu. rewrite Etr in Htr, Hh1, Hev. rewrite En in Hev.
  fold txn in Htx, Hh2, Hev.
  destruct (dispatch_tagged O route req' res' Hh w1) as (evs & Hl2 & Hp & Hans).
  rewrite Htr, Htx in Hp.
  pose proof (accept_unfold route req w) as Hacc.
  rewrite Hmw in Hacc. cbv zeta in Hacc.
  destruct (dispatch O route req' res' w1) as [reply w2] eqn:Hd.
  cbn in Hl2, Hans.
  exists req', reply, w2.
  split; [exact Hacc|]. split; [exact Htr|]. split; [exact Htx|].
  split; [subst n; destruct inbound; lia|].
  assert (uuidCalls w2 = uuidCalls w1) as Hsame.
  { clear -Hd. destruct route; cbn in Hd;
      unfold postPayments, getPaymentStatus, postRefunds, getHealth, getRoot in Hd;
      unfold json, res_end in Hd; unfold_m;
      repeat match type of Hd with
             | context [if ?c then _ else _] => destruct c
             | context [match endHook ?r with _ => _ end] =>
                 destruct (endHook r) as [[? ?]|]
             end;
      cbn in Hd; injection Hd as _ <-; reflexivity. }
  split; [by rewrite Hsame|].
  assert (added w w2 = ev :: evs) as Hadd
    by (apply added_app; rewrite Hl2, Hl, <- app_assoc; reflexivity).
  split; [by exists ev, evs|].
  split; [rewrite Hadd; by constructor|].
  intros w3. destruct (Hans w3) as (evs3 & Hl3 & Hp3 & Hhd).
  rewrite Hhd, Hh1, Hh2. split; [done|]. split; [done|].
  rewrite (added_app _ _ _ Hl3). by rewrite Htr, Htx in Hp3.
Qed.

End CorrelationTheorem.

(** ** Status lookups *)

Section StatusLookup.
Local Open Scope Q_scope.




End StatusLookup.


(** * The load generator *)

Module GeneratorFacts.
Import LoadGenerator.

Section Ticks.
Context (parseInt : string -> option Z) (mathRandom : nat -> Q).
Local Open Scope Q_scope.

Lemma runForever_true (env : gmap string string) :
  runForever (CONFIG parseInt env) = true.
Proof. cbn. apply orb_true_r. Qed.

(** With [runForever] set, the callback never takes its first branch. *)
Lemma tickBegin_runs (env : gmap string string) (endTime : option Z) (now : Z) (g : Gen) :
  tickBegin mathRandom (CONFIG parseInt env) endTime now g =
    let requestType := mathRandom (randomCalls g) in
    let pool := successfulPaymentIds g in
    let randomIndex :=
      floor (mathRandom (S (randomCalls g)) * inject_Z (Z.of_nat (length pool))) in
    if Qltb requestType 0.6 then (Some (MakePayment, Remember), drawn 1 g)
    else if Qltb requestType 0.8 then
      if (0 <? length pool)%nat
      then (Some (GetPaymentStatus (index pool randomIndex), Nothing), drawn 2 g)
      else (Some (MakePayment, Nothing), drawn 1 g)
    else if Qltb requestType 0.95 then
      if (0 <? length pool)%nat
      then (Some (MakeRefund (index pool randomIndex), MaybeForget randomIndex), drawn 2 g)
      else (Some (MakePayment, Nothing), drawn 1 g)
    else (Some (HealthCheck, Nothing), drawn 1 g).
Proof.
  unfold tickBegin. rewrite runForever_true. cbn [negb andb].
  unfold getRandomInt, random, drawn.
  cbn -[Qltb floor Z.add Z.sub Z.of_nat Nat.ltb].
  replace (Z.of_nat (length (successfulPaymentIds g)) - 1 - 0 + 1)%Z
    with (Z.of_nat (length (successfulPaymentIds g))) by lia.
  rewrite Z.add_0_r.
  repeat match goal with
         | |- context [if ?c then _ else _] => destruct c
         end; reflexivity.
Qed.




(** ** The pool of payment ids *)

Lemma tickBegin_pool (cfg : Config) (endTime : option Z) (now : Z) (g : Gen) :
  successfulPaymentIds (tickBegin mathRandom cfg endTime now g).2
  = successfulPaymentIds g.
Proof.
  unfold tickBegin, getRandomInt, random, clearInterval.
  repeat match goal with
         | |- context [if ?c then _ else _] => destruct c
         | |- context [match ?o with Some _ => _ | None => _ end] => destruct o
         end; reflexivity.
Qed.

Lemma splice1_length (pool : list JsValue) (i : Z) :
  (length (splice1 pool i) <= length pool)%nat.
Proof.
  unfold splice1. apply sublist_length, sublist_delete.
Qed.

(** What the resumed callback of a payment does to the pool. *)
Lemma remember_pool (result : HttpResult) (g : Gen) :
  successfulPaymentIds (tickResume mathRandom Remember result g) =
    let id := makePaymentRequest result in
    let pool := successfulPaymentIds g in
    if truthy id
    then if (100 <? length (pool ++ [id]))%nat
         then drop 1 (pool ++ [id]) else (pool ++ [id])%list
    else pool.
Proof.
  unfold tickResume. cbv zeta.
  destruct (truthy (makePaymentRequest result)); [|reflexivity].
  by destruct (100 <? length (successfulPaymentIds g ++ [makePaymentRequest result]))%nat.
Qed.

Lemma tickResume_bounded (rest : Rest) (result : HttpResult) (g : Gen) :
  (length (successfulPaymentIds g) <= 100)%nat ->
  (length (successfulPaymentIds (tickResume mathRandom rest result g)) <= 100)%nat.
Proof.
  intros Hb. destruct rest.
  - rewrite remember_pool. cbv zeta.
    destruct (truthy (makePaymentRequest result)); [|done].
    destruct (Nat.ltb_spec 100
                (length (successfulPaymentIds g ++ [makePaymentRequest result]))) as [H|H].
    + rewrite length_drop, length_app. cbn. lia.
    + done.
  - done.
  - unfold tickResume, random. cbn -[Qltb splice1].
    destruct (Qltb 0.5 (mathRandom (randomCalls g))); [|done].
    cbn -[splice1]. pose proof (splice1_length (successfulPaymentIds g) randomIndex). lia.
Qed.

Lemma step_bounded (cfg : Config) (endTime : option Z) (s s' : Gen * list Rest) :
  step mathRandom cfg endTime s s' ->
  (length (successfulPaymentIds s.1) <= 100)%nat ->
  (length (successfulPaymentIds s'.1) <= 100)%nat.
Proof.
  intros Hstep Hb. destruct Hstep as [g g' h now call rest fl _ E
                                     | g g' h now fl _ E | g h fl _ | g rest result b a];
    cbn in *.
  - pose proof (tickBegin_pool cfg endTime now g) as Hp. rewrite E in Hp.
    cbn in Hp. by rewrite Hp.
  - pose proof (tickBegin_pool cfg endTime now g) as Hp. rewrite E in Hp.
    cbn in Hp. by rewrite Hp.
  - done.
  - by apply tickResume_bounded.
Qed.

Lemma run_bounded (cfg : Config) (endTime : option Z) (s s' : Gen * list Rest) :
  rtc (step mathRandom cfg endTime) s s' ->
  (length (successfulPaymentIds s.1) <= 100)%nat ->
  (length (successfulPaymentIds s'.1) <= 100)%nat.
Proof.
  induction 1 as [|s1 s2 s3 Hstep _ IH]; [done|].
  intros Hb. apply IH. by eapply step_bounded.
Qed.

(** The pool after a payment tick that comes back with the id [id]. *)
Lemma payment_tick_pool (env : gmap string string) (endTime : option Z) (now : Z)
    (id : JsValue) (g : Gen) :
  Qltb (mathRandom (randomCalls g)) 0.6 = true ->
  truthy id = true ->
  (length (successfulPaymentIds g) <= 100)%nat ->
  let g' := (tick mathRandom (CONFIG parseInt env) endTime now
               (Resolved {[ "payment_id" := id ]}) g).2 in
  let pool := successfulPaymentIds g in
  successfulPaymentIds g' =
    drop (length (pool ++ [id]) - 100) (pool ++ [id]) /\
  randomCalls g' = S (randomCalls g).
Proof.
  intros Hr Hid Hb g' pool. subst g'. unfold tick.
  rewrite tickBegin_runs. cbv zeta. rewrite Hr.
  cbn [fst snd]. split.
  - rewrite remember_pool. cbv zeta.
    assert (makePaymentRequest (Resolved {["payment_id" := id]}) = id) as ->.
    { cbn. unfold prop. by rewrite lookup_singleton_eq. }
    rewrite Hid. cbn [successfulPaymentIds drawn]. fold pool.
    destruct (Nat.ltb_spec 100 (length (pool ++ [id]))) as [H|H].
    + rewrite length_app in *. cbn [length] in *.
      by replace (length pool + 1 - 100)%nat with 1%nat by (subst pool; lia).
    + by replace (length (pool ++ [id]) - 100)%nat with 0%nat by lia.
  - unfold tickResume.
    destruct (truthy _); [|reflexivity].
    by destruct (100 <? _)%nat.
Qed.

Lemma payments_pool (env : gmap string string) (endTime : option Z) (now : Z)
    (ids : list JsValue) (g : Gen) :
  (forall n, (randomCalls g <= n)%nat -> Qltb (mathRandom n) 0.6 = true) ->
  Forall (fun id => truthy id = true) ids ->
  (length (successfulPaymentIds g) <= 100)%nat ->
  successfulPaymentIds (payments mathRandom (CONFIG parseInt env) endTime now ids g) =
    drop (length (successfulPaymentIds g ++ ids) - 100) (successfulPaymentIds g ++ ids).
Proof.
  revert g. induction ids as [|id ids IH]; intros g Hr Hids Hb.
  - cbn. rewrite app_nil_r.
    by replace (length (successfulPaymentIds g) - 100)%nat with 0%nat by lia.
  - apply Forall_cons in Hids as [Hid Hids].
    destruct (payment_tick_pool env endTime now id g (Hr _ (le_n _)) Hid Hb)
      as [Hpool Hcalls].
    cbv zeta in Hpool, Hcalls. cbn [payments foldl].
    set (g1 := (tick mathRandom (CONFIG parseInt env) endTime now
                  (Resolved {["payment_id" := id]}) g).2) in *.
    fold (payments mathRandom (CONFIG parseInt env) endTime now ids g1).
    set (pool := successfulPaymentIds g) in *.
    assert (length (successfulPaymentIds g1) <= 100)%nat as Hb1.
    { rewrite Hpool, length_drop, length_app. cbn. lia. }
    rewrite IH; [|intros n Hn; apply Hr; lia|done|done].
    rewrite Hpool.
    set (k := (length (pool ++ [id]) - 100)%nat).
    assert (k <= length (pool ++ [id]))%nat as Hk by lia.
    rewrite <- (drop_app_le _ _ _ Hk), <- app_assoc. cbn [app].
    rewrite drop_drop. f_equal.
    rewrite length_drop. subst k. rewrite !length_app in *. cbn [length] in *. lia.
Qed.

(** C2, as the code has it.  Whatever the order in which timers fire and
    calls come back, the pool never holds more than 100 ids.  The id of a
    successful payment made by the payment action (a draw below 0.6) is put
    at the end of the pool, and the oldest id is dropped when that makes
    101; so a run of payment ticks leaves the last 100 of the ids the pool
    has held and received, in order, and 150 payments from the start leave
    the last 100 of them. *)
Theorem payment_pool_bounded_fifo (env : gmap string string) (endTime : option Z) :
  let cfg := CONFIG parseInt env in
  (forall g inflight,
     rtc (step mathRandom cfg endTime) (started, []) (g, inflight) ->
     (length (successfulPaymentIds g) <= 100)%nat) /\
  (forall now id g,
     mathRandom (randomCalls g) < 0.6 ->
     truthy id = true ->
     (length (successfulPaymentIds g) <= 100)%nat ->
     let g' := (tick mathRandom cfg endTime now (Resolved {[ "payment_id" := id ]}) g).2 in
     successfulPaymentIds g' =
       if (length (successfulPaymentIds g) <? 100)%nat
       then (successfulPaymentIds g ++ [id])%list
       else (drop 1 (successfulPaymentIds g) ++ [id])%list) /\
  (forall now ids g,
     (forall n, (randomCalls g <= n)%nat -> mathRandom n < 0.6) ->
     Forall (fun id => truthy id = true) ids ->
     (length (successfulPaymentIds g) <= 100)%nat ->
     successfulPaymentIds (payments mathRandom cfg endTime now ids g) =
       drop (length (successfulPaymentIds g ++ ids) - 100)
            (successfulPaymentIds g ++ ids)) /\
  (forall now ids,
     (forall n, mathRandom n < 0.6) ->
     Forall (fun id => truthy id = true) ids ->
     length ids = 150%nat ->
     successfulPaymentIds (payments mathRandom cfg endTime now ids started) =
       drop 50 ids).
Proof.
  intros cfg. subst cfg. repeat match goal with |- _ /\ _ => split end.
  - intros g inflight Hrun.
    apply (run_bounded _ endTime _ _ Hrun). cbn. lia.
  - intros now id g Hr Hid Hb g'. apply Qltb_lt in Hr.
    destruct (payment_tick_pool env endTime now id g Hr Hid Hb) as [Hpool _].
    cbv zeta in Hpool. subst g'. rewrite Hpool, length_app. cbn [length].
    destruct (Nat.ltb_spec (length (successfulPaymentIds g)) 100) as [H|H].
    + by replace (length (successfulPaymentIds g) + 1 - 100)%nat with 0%nat by lia.
    + replace (length (successfulPaymentIds g) + 1 - 100)%nat with 1%nat by lia.
      rewrite drop_app_le; [done|lia].
  - intros now ids g Hr Hids Hb. apply payments_pool; [|done|done].
    intros n Hn. by apply Qltb_lt, Hr.
  - intros now ids Hr Hids Hlen.
    rewrite payments_pool; [|intros; by apply Qltb_lt|done|cbn; lia].
    change (successfulPaymentIds started) with (@nil JsValue).
    cbn [app]. by rewrite Hlen.
Qed.

End Ticks.


(** C2, as it is worded.  With the draw 0.7 and an empty pool the tick
    falls back to a payment; the payment succeeds and comes back with the id
    [pmt_0000000001], and the pool is still empty afterwards. *)
Lemma fallback_payment_not_remembered :
  let result := Resolved {[ "payment_id" := JStr "pmt_0000000001" ]} in
  let done := tick (replay [0.7]%Q) (CONFIG parseDecimal ∅) None 0 result started in
  done.1 = Some MakePayment /\
  makePaymentRequest result = JStr "pmt_0000000001" /\
  ~ In (JStr "pmt_0000000001") (successfulPaymentIds done.2) /\
  successfulPaymentIds done.2 = [].
Proof.
  cbv zeta. split; [reflexivity|]. split; [reflexivity|].
  split; [intros []|reflexivity].
Qed.

(** 150 payments from the start leave the ids [pmt_50] .. [pmt_149]. *)
Lemma payment_pool_bounded_fifo_witness :
  (forall n : nat, (replay [] n < 0.6)%Q) /\
  Forall (fun id => truthy id = true) (someIds 150) /\
  length (someIds 150) = 150%nat /\
  successfulPaymentIds
    (payments (replay []) (CONFIG parseDecimal ∅) None 0 (someIds 150) started)
  = drop 50 (someIds 150).
Proof.
  assert (forall n : nat, (replay [] n < 0.6)%Q) as Hr
    by (intros n; unfold replay; by destruct n).
  assert (Forall (fun id => truthy id = true) (someIds 150)) as Hids.
  { apply Forall_fmap, Forall_forall. intros i _. reflexivity. }
  split; [exact Hr|]. split; [exact Hids|]. split; [reflexivity|].
  destruct (payment_pool_bounded_fifo parseDecimal (replay []) ∅ None)
    as (_ & _ & _ & Hlast).
  apply Hlast; [exact Hr | exact Hids | reflexivity].
Defined.

(** ** Duration and timers *)

Lemma tickBegin_continues (parseInt : string -> option Z) (mathRandom : nat -> Q)
    (env : gmap string string) (endTime : option Z) (now : Z) (g : Gen) :
  exists call rest g',
    tickBegin mathRandom (CONFIG parseInt env) endTime now g = (Some (call, rest), g') /\
    timers g' = timers g /\ loadInterval g' = loadInterval g.
Proof.
  rewrite tickBegin_runs. cbv zeta.
  repeat match goal with
         | |- context [if ?c then _ else _] => destruct c
         end; by eexists _, _, _.
Qed.

Lemma tickResume_timers (mathRandom : nat -> Q) (rest : Rest) (result : HttpResult)
    (g : Gen) :
  timers (tickResume mathRandom rest result g) = timers g.
Proof.
  destruct rest; unfold tickResume, random; cbn -[Qltb splice1];
    repeat match goal with
           | |- context [if ?c then _ else _] => destruct c
           end; reflexivity.
Qed.

(** C5, on the code.  [runForever] is true whatever [RUN_FOREVER] holds, so
    every tick sends a request and leaves both intervals set; no run of the
    generator clears either of them.  With [RUN_FOREVER=false] and
    [DURATION_MINUTES=1], a tick one hour after the start, 59 minutes past
    the end time, still makes a payment, and the two intervals are still
    set afterwards. *)
Theorem generator_runs_forever :
  (forall parseInt env, runForever (CONFIG parseInt env) = true) /\
  (forall parseInt mathRandom env endTime g inflight,
     rtc (step mathRandom (CONFIG parseInt env) endTime) (started, []) (g, inflight) ->
     timers g !! 0%nat = Some LoadLoop /\ timers g !! 1%nat = Some PeriodicHealth) /\
  let env := <["RUN_FOREVER" := "false"]> (<["DURATION_MINUTES" := "1"]> ∅) in
  let cfg := CONFIG parseDecimal env in
  envIs env "RUN_FOREVER" "true" = false /\
  durationMinutes cfg = Some 1%Z /\
  endTimeOf cfg 0 = Some 60000%Z /\
  pastEnd 3600000 (endTimeOf cfg 0) = true /\
  let done := tick (replay [0.1]%Q) cfg (endTimeOf cfg 0) 3600000 Rejected started in
  done.1 = Some MakePayment /\
  timers done.2 !! 0%nat = Some LoadLoop /\
  timers done.2 !! 1%nat = Some PeriodicHealth /\
  loadInterval done.2 = Some 0%nat.
Proof.
  split; [intros; apply runForever_true|]. split.
  - intros parseInt mathRandom env endTime g inflight Hrun.
    assert (timers g = timers started) as ->; [|by split].
    remember (started, @nil Rest) as s0 eqn:E0.
    remember (g, inflight) as s1 eqn:E1.
    assert (timers s1.1 = timers s0.1) as H; [|by subst].
    clear E0 E1. induction Hrun as [|s1 s2 s3 Hstep _ IH]; [done|].
    rewrite IH. clear IH.
    destruct Hstep as [g1 g' h now call rest fl _ E
                      | g1 g' h now fl _ E | g1 h fl _ | g1 rest result b a]; cbn.
    + destruct (tickBegin_continues parseInt mathRandom env endTime now g1)
        as (? & ? & ? & E' & Ht & _). congruence.
    + destruct (tickBegin_continues parseInt mathRandom env endTime now g1)
        as (? & ? & ? & E' & Ht & _). congruence.
    + done.
    + apply tickResume_timers.
  - cbv zeta. repeat split; vm_compute; reflexivity.
Qed.

End GeneratorFacts.

(** * Loading the service *)

Module LoadingFacts.
Import Loading.

(** C10. [app.js] declares [logger] twice with [const] at its top level,
    first from a call of [pino] and then from a call of [connectLogger], a
    name that nothing in the module declares.  Loading the module stops at
    the duplicate before any statement runs: no route is registered and
    nothing listens.  Without the second declaration the module would load
    and serve its five routes; without the first it would stop at the call
    of [connectLogger]. *)
Theorem app_js_does_not_load :
  initialisers "logger" app_js = [CallOf "pino"; CallOf "connectLogger"] /\
  List.filter (String.eqb "logger") (lexicallyDeclaredNames app_js)
    = ["logger"; "logger"] /\
  bool_decide ("connectLogger" ∈ lexicallyDeclaredNames app_js) = false /\
  bool_decide ("connectLogger" ∈ globals) = false /\
  load app_js = SyntaxError "logger" /\
  served (load app_js) = [] /\
  served (load (delete 10%nat app_js)) =
    [ ("POST", "/api/payments"); ("GET", "/api/payments/:paymentId");
      ("POST", "/api/refunds"); ("GET", "/health"); ("GET", "/") ] /\
  load (delete 9%nat app_js) = ReferenceError "connectLogger".
Proof.
  repeat split; vm_compute; reflexivity.
Qed.

End LoadingFacts.

(** * Further properties of the service *)

(** Run a served request down to its primitive steps, splitting on every
    test that stays open. *)
Ltac run_cases :=
  repeat (run_handler;
          match goal with
          | |- context [if ?c then _ else _] => destruct c eqn:?
          end);
  run_handler.

(** The events added to the log, once the run is down to its steps. *)
Ltac added_events :=
  unfold added; cbn [snd fst logged];
  rewrite <- ?app_assoc; rewrite drop_app_length; cbn [app].

Section PaymentAnswers.
Context (O : Oracles).
Local Open Scope Q_scope.

(** Everything a valid payment leaves behind, by the three flags. *)
Lemma serve_payment_full (req : Req) (w : World) :
  truthy (prop (body req) "amount") = true ->
  truthy (prop (body req) "currency") = true ->
  truthy (prop (body req) "customerId") = true ->
  let f := Qltb (mathRandom O (1 + randomCalls w)) 0.2 in
  let t := Qltb (mathRandom O (2 + randomCalls w)) 0.05 in
  let v := Qltb (mathRandom O (3 + randomCalls w)) 0.1 in
  let reason := if Qltb (mathRandom O (4 + randomCalls w)) 0.5
                then "Invalid card details" else "Insufficient funds" in
  let paymentId := JStr ("pmt_" +:+ fakerAccount O (fakerCalls w)) in
  let code := (if t then 504 else if v then 400 else if f then 500 else 200)%Z in
  let out := serve O PostPayments req w in
  statusCode out.1 = code /\
  sent out.1 =
    Some (if t then [ ("success", JBool false); ("payment_id", paymentId);
                      ("error", JStr "Payment gateway timeout") ]
          else if v then [ ("success", JBool false); ("payment_id", paymentId);
                           ("error", JStr reason) ]
          else if f then [ ("success", JBool false); ("payment_id", paymentId);
                           ("error", JStr "Payment processor error") ]
          else [ ("success", JBool true); ("payment_id", paymentId);
                 ("amount", prop (body req) "amount");
                 ("currency", prop (body req) "currency");
                 ("status", JStr "completed");
                 ("timestamp", JStr (toISOString O (dateNow O (1 + clockReads w)))) ]) /\
  randomCalls out.2 = ((if negb t && v then 5 else 4) + randomCalls w)%nat /\
  fakerCalls out.2 = (1 + fakerCalls w)%nat /\
  exists e1 e2 e3 e4,
    added w out.2 = [e1; e2; e3; e4] /\
    field "payment_id" (entry e2) = paymentId /\
    field "payment_id" (entry e3) = paymentId /\
    level e2 = Info /\
    level e3 = (if (400 <=? code)%Z then Error else Info) /\
    field "status_code" (entry e3) = num code /\
    field "customer_id" (entry e2) = prop (body req) "customerId" /\
    field "customer_id" (entry e3)
      = (if (400 <=? code)%Z then JUndefined else prop (body req) "customerId") /\
    field "amount" (entry e3)
      = (if (400 <=? code)%Z then JUndefined else prop (body req) "amount") /\
    field "currency" (entry e3)
      = (if (400 <=? code)%Z then JUndefined else prop (body req) "currency").
Proof.
  intros Ha Hc Hi f t v reason paymentId code out.
  subst f t v reason paymentId code out.
  unfold serve, accept, requestId, responseTimer, dispatch, postPayments, fire.
  run_handler.
  destruct (truthy (header req "x-trace-id")); run_handler;
    rewrite Ha, Hc, Hi; run_handler.
  all: destruct (Qltb (mathRandom O (S (S (randomCalls w)))) 0.05);
    [|destruct (Qltb (mathRandom O (S (S (S (randomCalls w))))) 0.1);
      [|destruct (Qltb (mathRandom O (S (randomCalls w))) 0.2)]].
  all: run_handler.
  all: repeat (split; [reflexivity|]).
  all: eexists _, _, _, _; split; [added_events; reflexivity|].
  all: repeat split; reflexivity.
Qed.

End PaymentAnswers.

Section LogShape.
Context (O : Oracles).

(** The log of a route handler and of its timer callback, for a response
    on which the hook of [res.end] is installed. *)
Lemma dispatch_log_shape (route : Route) (req : Req) (hs : gmap string JsValue)
    (start : Z) (w : World) :
  let res := {| statusCode := 200; statusMessage := JUndefined; resHeaders := hs;
                sent := None; responseTime := JUndefined;
                endHook := Some (start, req) |} in
  let out := (dispatch O route req res ≫= fire) w in
  let code := statusCode out.1 in
  exists evs ev,
    logged out.2 = (logged w ++ evs ++ [ev])%list /\
    level ev = Info /\
    field "event_type" (entry ev) = JStr "response" /\
    field "status_code" (entry ev) = num code /\
    field "response_time" (entry ev) = responseTime out.1 /\
    (exists n, clockReads out.2 = S n /\
               responseTime out.1 = num (dateNow O n - start)) /\
    field "level" (entry ev) = JStr (if (400 <=? code)%Z then "error" else "info") /\
    field "error" (entry ev)
      = (if (400 <=? code)%Z then JStr "Request failed" else JUndefined) /\
    Forall (fun e => field "event_type" (entry e) <> JStr "response" /\
                     (level e = Error ->
                      field "status_code" (entry e) = num code /\ (400 <= code)%Z))
           evs /\
    ((400 <= code)%Z -> Exists (fun e => level e = Error) evs) /\
    randomCalls out.2 =
      (match route with
       | PostPayments =>
           if negb (truthy (prop (body req) "amount"))
              || negb (truthy (prop (body req) "currency"))
              || negb (truthy (prop (body req) "customerId")) then 0
           else if Qltb (mathRandom O (2 + randomCalls w)) 0.05 then 4
           else if Qltb (mathRandom O (3 + randomCalls w)) 0.1 then 5 else 4
       | PostRefunds =>
           if negb (truthy (prop (body req) "paymentId"))
              || negb (truthy (prop (body req) "amount")) then 0 else 2
       | GetPaymentStatus _ => 2
       | GetHealth | GetRoot => 0
       end + randomCalls w)%nat /\
    fakerCalls out.2 =
      (match route with
       | PostPayments =>
           if negb (truthy (prop (body req) "amount"))
              || negb (truthy (prop (body req) "currency"))
              || negb (truthy (prop (body req) "customerId")) then 0 else 1
       | PostRefunds =>
           if negb (truthy (prop (body req) "paymentId"))
              || negb (truthy (prop (body req) "amount")) then 0 else 1
       | _ => 0
       end + fakerCalls w)%nat.
Proof.
  intros res out code. subst res out code.
  unfold dispatch, fire.
  destruct route;
    unfold postPayments, getPaymentStatus, postRefunds, getHealth, getRoot.
  all: run_cases.
  all: cbn [snd fst logged]; rewrite <- ?app_assoc; cbn [app].
  all: first [ eexists [_], _; split; [reflexivity|]
             | eexists [_; _], _; split; [reflexivity|] ].
  all: repeat (split; [first [reflexivity | eexists; split; reflexivity]|]).
  all: split; [repeat constructor; cbn; try discriminate; try lia|].
  all: split; [|split; reflexivity].
  all: intros Hcode; try (cbn in Hcode; lia).
  all: first [ apply Exists_cons_hd; reflexivity
             | apply Exists_cons_tl, Exists_cons_hd; reflexivity ].
Qed.

(** A served request is the route handler and its callback run on what the
    two middlewares leave. *)
Lemma serve_through_middlewares (route : Route) (req : Req) (w : World) :
  exists req' hs ev w1,
    serve O route req w =
      (dispatch O route req'
         {| statusCode := 200; statusMessage := JUndefined; resHeaders := hs;
            sent := None; responseTime := JUndefined;
            endHook := Some (dateNow O (clockReads w), req') |} ≫= fire) w1 /\
    logged w1 = (logged w ++ [ev])%list /\
    level ev = Info /\
    field "event_type" (entry ev) = JStr "request" /\
    field "status_code" (entry ev) = JUndefined /\
    clockReads w1 = S (clockReads w) /\
    randomCalls w1 = randomCalls w /\
    fakerCalls w1 = fakerCalls w /\
    body req' = body req /\
    method req' = method req /\ path req' = path req.
Proof.
  unfold serve, accept, requestId, responseTimer. unfold_m.
  destruct (truthy (header req "x-trace-id")); cbn -[dispatch].
  all: match goal with
       | |- context [dispatch O ?r ?rq ?rs ?v] =>
           exists rq, (resHeaders rs); eexists; exists v
       end.
  all: split;
    [ cbn -[dispatch];
      match goal with
      | |- context [dispatch O ?r ?rq ?rs ?v] =>
          destruct (dispatch O r rq rs v); reflexivity
      end
    | cbn; repeat split; reflexivity ].
Qed.

End LogShape.

Section ResponseEvent.
Context (O : Oracles).


(** X2. An event of a served request is logged with [logger.error] only
    when the response has a status of 400 or more, and it then carries that
    status as its [status_code]; conversely every response with such a
    status has an event logged with [logger.error]. *)
Theorem error_events_carry_the_status (route : Route) (req : Req) (w : World) :
  let out := serve O route req w in
  let code := statusCode out.1 in
  Forall (fun e => level e = Error ->
                   field "status_code" (entry e) = num code /\ (400 <= code)%Z)
         (added w out.2) /\
  ((400 <= code)%Z <-> Exists (fun e => level e = Error) (added w out.2)).
Proof.
  intros out code. subst out code.
  destruct (serve_through_middlewares O route req w)
    as (req' & hs & ev0 & w1 & -> & Hl & Hlev0 & _).
  destruct (dispatch_log_shape O route req' hs (dateNow O (clockReads w)) w1)
    as (evs & ev & Hlog & Hlev & _ & _ & _ & _ & _ & _ & Hall & Hex & _).
  rewrite (added_app w _ (ev0 :: evs ++ [ev]))
    by (rewrite Hlog, Hl, <- app_assoc; reflexivity).
  match goal with
  | |- Forall ?P ?l /\ _ => assert (Forall P l) as Hforall
  end.
  { constructor; [intros E; congruence|].
    apply Forall_app. split.
    - eapply Forall_impl; [exact Hall|]. by intros e [_ He].
    - constructor; [intros E; congruence|constructor]. }
  split; [exact Hforall|]. split.
  - intros Hcode. apply Exists_cons_tl, Exists_app. left. by apply Hex.
  - intros Hsome. apply Exists_exists in Hsome as (e & Hin & He).
    rewrite Forall_forall in Hforall. by destruct (Hforall e Hin He).
Qed.

End ResponseEvent.

Section DrawBudget.
Context (O : Oracles).

(** X3. The number of [Math.random] calls a request consumes is fixed by
    its route and its branch: none for the health and info routes and for
    a payment or refund rejected for a missing field; two for a status
    lookup and for a refund; four for a payment, and a fifth only when the
    payment ends in the simulated validation error.  [faker] is called
    once by a payment or refund that passes the check, and never
    otherwise. *)
Theorem draws_per_request (route : Route) (req : Req) (w : World) :
  let out := serve O route req w in
  randomCalls out.2 =
    (match route with
     | PostPayments =>
         if negb (truthy (prop (body req) "amount"))
            || negb (truthy (prop (body req) "currency"))
            || negb (truthy (prop (body req) "customerId")) then 0
         else if Qltb (mathRandom O (2 + randomCalls w)) 0.05 then 4
         else if Qltb (mathRandom O (3 + randomCalls w)) 0.1 then 5 else 4
     | PostRefunds =>
         if negb (truthy (prop (body req) "paymentId"))
            || negb (truthy (prop (body req) "amount")) then 0 else 2
     | GetPaymentStatus _ => 2
     | GetHealth | GetRoot => 0
     end + randomCalls w)%nat /\
  fakerCalls out.2 =
    (match route with
     | PostPayments =>
         if negb (truthy (prop (body req) "amount"))
            || negb (truthy (prop (body req) "currency"))
            || negb (truthy (prop (body req) "customerId")) then 0 else 1
     | PostRefunds =>
         if negb (truthy (prop (body req) "paymentId"))
            || negb (truthy (prop (body req) "amount")) then 0 else 1
     | _ => 0
     end + fakerCalls w)%nat.
Proof.
  intros out. subst out.
  destruct (serve_through_middlewares O route req w)
    as (req' & hs & ev0 & w1 & -> & _ & _ & _ & _ & _ & Hr & Hf & Hb & _).
  destruct (dispatch_log_shape O route req' hs (dateNow O (clockReads w)) w1)
    as (_ & _ & _ & _ & _ & _ & _ & _ & _ & _ & _ & _ & Hrand & Hfake).
  rewrite Hb, Hr in Hrand. rewrite Hb, Hf in Hfake. by split.
Qed.

End DrawBudget.

Section FieldChecks.
Context (O : Oracles).

(** X4. The payment handler answers at once exactly when one of [amount],
    [currency], [customerId] is falsy, be it absent, [null], [false], [0]
    or the empty string: the status is then 400, no random number is drawn,
    and the [validation_errors] of the error event name the falsy fields
    and hold [null] for the others.  In every other case the handler sets
    its timer and sends nothing itself. *)
Theorem payment_check_is_truthiness (req : Req) (res : Res) (w : World) :
  let amount := prop (body req) "amount" in
  let currency := prop (body req) "currency" in
  let customerId := prop (body req) "customerId" in
  let out := postPayments O req res w in
  match out.1 with
  | Sent r =>
      truthy amount && truthy currency && truthy customerId = false /\
      statusCode r = 400%Z /\
      randomCalls out.2 = randomCalls w /\
      exists ev rest,
        added w out.2 = ev :: rest /\
        level ev = Error /\
        field "validation_errors" (entry ev) =
          JObj [ ("amount", if truthy amount then JNull
                            else JStr "Amount is required");
                 ("currency", if truthy currency then JNull
                              else JStr "Currency is required");
                 ("customerId", if truthy customerId then JNull
                                else JStr "Customer ID is required") ]
  | Timer _ _ =>
      truthy amount && truthy currency && truthy customerId = true /\
      typesOf (added w out.2) = [JStr "payment_processing"]
  end.
Proof.
  intros amount currency customerId out. subst amount currency customerId out.
  unfold postPayments, required, json, res_end. unfold_m.
  destruct (truthy (prop (body req) "amount")),
           (truthy (prop (body req) "currency")),
           (truthy (prop (body req) "customerId"));
    cbn -[Qltb floor Z.add].
  all: try destruct (endHook res) as [[start rq]|]; cbn -[Qltb floor Z.add].
  all: try (split; [reflexivity|]; unfold added; cbn;
            rewrite drop_app_length; reflexivity).
  all: repeat (split; [reflexivity|]).
  all: eexists _, _; split;
    [ unfold added; cbn; rewrite <- ?app_assoc; rewrite drop_app_length; reflexivity
    | split; reflexivity ].
Qed.

(** X5. The refund handler answers at once exactly when [paymentId] or
    [amount] is falsy: the status is then 400 with the body
    [{success: false, error}], no random number is drawn and no refund id
    is generated.  In every other case it sets its timer and sends nothing
    itself. *)
Theorem refund_check_is_truthiness (req : Req) (res : Res) (w : World) :
  let paymentId := prop (body req) "paymentId" in
  let amount := prop (body req) "amount" in
  let out := postRefunds O req res w in
  match out.1 with
  | Sent r =>
      truthy paymentId && truthy amount = false /\
      statusCode r = 400%Z /\
      sent r = Some [ ("success", JBool false);
                      ("error", JStr "Missing required fields for refund") ] /\
      randomCalls out.2 = randomCalls w /\
      fakerCalls out.2 = fakerCalls w /\
      exists ev rest,
        added w out.2 = ev :: rest /\
        level ev = Error /\
        field "event_type" (entry ev) = JStr "refund_validation_error" /\
        field "validation_errors" (entry ev) =
          JObj [ ("paymentId", if truthy paymentId then JNull
                               else JStr "Payment ID is required");
                 ("amount", if truthy amount then JNull
                            else JStr "Amount is required") ]
  | Timer _ _ =>
      truthy paymentId && truthy amount = true /\
      typesOf (added w out.2) = [JStr "refund_processing"]
  end.
Proof.
  intros paymentId amount out. subst paymentId amount out.
  unfold postRefunds, required, json, res_end. unfold_m.
  destruct (truthy (prop (body req) "paymentId")),
           (truthy (prop (body req) "amount"));
    cbn -[Qltb floor Z.add].
  all: try destruct (endHook res) as [[start rq]|]; cbn -[Qltb floor Z.add].
  all: try (split; [reflexivity|]; unfold added; cbn;
            rewrite drop_app_length; reflexivity).
  all: repeat (split; [reflexivity|]).
  all: eexists _, _; split;
    [ unfold added; cbn; rewrite <- ?app_assoc; rewrite drop_app_length; reflexivity
    | repeat split; reflexivity ].
Qed.

End FieldChecks.

Section RefundAnswers.
Local Open Scope Q_scope.

Lemma serve_refund_full (O : Oracles) (req : Req) (w : World) :
  truthy (prop (body req) "paymentId") = true ->
  truthy (prop (body req) "amount") = true ->
  let fails := Qltb (mathRandom O (1 + randomCalls w)) 0.15 in
  let refundId := JStr ("ref_" +:+ fakerAccount O (fakerCalls w)) in
  let out := serve O PostRefunds req w in
  statusCode out.1 = (if fails then 500 else 200)%Z /\
  sent out.1 =
    Some (if fails
          then [ ("success", JBool false); ("refund_id", refundId);
                 ("payment_id", prop (body req) "paymentId");
                 ("error", JStr "Refund processor error") ]
          else [ ("success", JBool true); ("refund_id", refundId);
                 ("payment_id", prop (body req) "paymentId");
                 ("amount", prop (body req) "amount");
                 ("status", JStr "completed");
                 ("timestamp", JStr (toISOString O (dateNow O (1 + clockReads w)))) ]) /\
  exists e1 e2 e3 e4,
    added w out.2 = [e1; e2; e3; e4] /\
    typesOf [e1; e2; e3; e4] =
      [ JStr "request"; JStr "refund_processing";
        JStr (if fails then "refund_failure" else "refund_success");
        JStr "response" ] /\
    field "refund_id" (entry e2) = refundId /\
    field "refund_id" (entry e3) = refundId /\
    field "reason" (entry e2) = or_else (prop (body req) "reason") (JStr "Not specified") /\
    level e3 = (if fails then Error else Info).
Proof.
  intros Hp Ha fails refundId out. subst fails refundId out.
  unfold serve, accept, requestId, responseTimer, dispatch, postRefunds, fire.
  run_handler.
  destruct (truthy (header req "x-trace-id")); run_handler;
    rewrite Hp, Ha; run_handler.
  all: destruct (Qltb (mathRandom O (S (randomCalls w))) 0.15); run_handler.
  all: repeat (split; [reflexivity|]).
  all: eexists _, _, _, _; split; [added_events; reflexivity|].
  all: repeat split; reflexivity.
Qed.

(** X6. A refund that passes the check fails with status 500 and the body
    [{success: false, refund_id, payment_id, error}] when its second draw is
    below 0.15, and otherwise succeeds with status 200, echoing the
    [paymentId] and the [amount] it was sent.  The refund id is [ref_]
    followed by one [faker] account and is the same in the processing event,
    the outcome event and the body.  On a grid of [20 k] draws, [3 k] fail
    and [17 k] succeed. *)
Theorem refund_outcome (O : Oracles) (req : Req) (w : World) :
  truthy (prop (body req) "paymentId") = true ->
  truthy (prop (body req) "amount") = true ->
  let d := mathRandom O (1 + randomCalls w) in
  let refundId := JStr ("ref_" +:+ fakerAccount O (fakerCalls w)) in
  let out := serve O PostRefunds req w in
  (d < 0.15 ->
   statusCode out.1 = 500%Z /\
   sent out.1 = Some [ ("success", JBool false); ("refund_id", refundId);
                       ("payment_id", prop (body req) "paymentId");
                       ("error", JStr "Refund processor error") ]) /\
  (0.15 <= d ->
   statusCode out.1 = 200%Z /\
   exists timestamp,
     sent out.1 = Some [ ("success", JBool true); ("refund_id", refundId);
                         ("payment_id", prop (body req) "paymentId");
                         ("amount", prop (body req) "amount");
                         ("status", JStr "completed");
                         ("timestamp", timestamp) ]) /\
  (exists e1 e2 e3 e4,
     added w out.2 = [e1; e2; e3; e4] /\
     field "refund_id" (entry e2) = refundId /\
     field "refund_id" (entry e3) = refundId) /\
  forall (k : nat) (p : Q),
    count (fun f => (Samples.refundStatusOn req p f =? 500)%Z) (grid (20 * k))
      = (3 * k)%nat /\
    count (fun f => (Samples.refundStatusOn req p f =? 200)%Z) (grid (20 * k))
      = (17 * k)%nat.
Proof.
  intros Hp Ha d refundId out.
  destruct (serve_refund_full O req w Hp Ha)
    as (Hcode & Hsent & e1 & e2 & e3 & e4 & Hadd & _ & H2 & H3 & _).
  fold d refundId out in Hcode, Hsent, Hadd, H2, H3.
  split; [|split; [|split]].
  - intros Hd. apply Qltb_lt in Hd. by rewrite Hcode, Hsent, Hd.
  - intros Hd. apply Qltb_ge in Hd. rewrite Hcode, Hsent, Hd.
    split; [reflexivity|]. by eexists.
  - by exists e1, e2, e3, e4.
  - intros k p.
    assert (forall f, Samples.refundStatusOn req p f
                      = (if Qltb f 0.15 then 500 else 200)%Z) as Hon.
    { intros f.
      exact (proj1 (serve_refund_full (scripted [p; f]) req idle Hp Ha)). }
    pose proof (count_grid_below 3 20 k 0.15 ltac:(lia) ltac:(lia) ltac:(reflexivity))
      as Hlow.
    pose proof (count_negb (fun q => Qltb q 0.15) (grid (20 * k))) as Hhigh.
    rewrite grid_length in Hhigh.
    split.
    + rewrite (count_ext _ (fun q => Qltb q 0.15)); [lia|].
      intros f _. rewrite Hon. by destruct (Qltb f 0.15).
    + rewrite (count_ext _ (fun q => negb (Qltb q 0.15))); [lia|].
      intros f _. rewrite Hon. by destruct (Qltb f 0.15).
Qed.

End RefundAnswers.

(** [{paymentId: "pmt_x", amount: 5}] with the failure draw at 0.1. *)
Lemma refund_outcome_witness :
  truthy (prop (body fiveBack) "paymentId") = true /\
  truthy (prop (body fiveBack) "amount") = true /\
  (0.1 < 0.15)%Q /\
  statusCode (serve (scripted [0.5; 0.1]%Q) PostRefunds fiveBack idle).1 = 500%Z.
Proof.
  split; [reflexivity|]. split; [reflexivity|]. split; [reflexivity|].
  destruct (refund_outcome (scripted [0.5; 0.1]%Q) fiveBack idle eq_refl eq_refl)
    as (Hfail & _).
  apply Hfail. reflexivity.
Defined.

Section PaymentLabels.
Local Open Scope Q_scope.

(** X7. A payment that passes the check gets one payment id, [pmt_]
    followed by the account [faker] returns for this request, whatever the
    outcome: the processing event, the outcome event and the body of the
    response all carry it, and the request makes exactly one [faker] call,
    so the next payment gets the next account. *)
Theorem payment_id_everywhere (O : Oracles) (req : Req) (w : World) :
  truthy (prop (body req) "amount") = true ->
  truthy (prop (body req) "currency") = true ->
  truthy (prop (body req) "customerId") = true ->
  let paymentId := JStr ("pmt_" +:+ fakerAccount O (fakerCalls w)) in
  let out := serve O PostPayments req w in
  exists obj e1 e2 e3 e4,
    sent out.1 = Some obj /\
    field "payment_id" obj = paymentId /\
    added w out.2 = [e1; e2; e3; e4] /\
    field "payment_id" (entry e2) = paymentId /\
    field "payment_id" (entry e3) = paymentId /\
    fakerCalls out.2 = S (fakerCalls w).
Proof.
  intros Ha Hc Hi paymentId out.
  destruct (serve_payment_full O req w Ha Hc Hi)
    as (_ & Hsent & _ & Hfake & e1 & e2 & e3 & e4 & Hadd & H2 & H3 & _).
  eexists _, e1, e2, e3, e4. split; [exact Hsent|].
  split; [|by repeat split].
  destruct (Qltb (mathRandom O (2 + randomCalls w)) 0.05),
           (Qltb (mathRandom O (3 + randomCalls w)) 0.1),
           (Qltb (mathRandom O (1 + randomCalls w)) 0.2); reflexivity.
Qed.

(** X8. When no flag is set, the payment is answered with status 200 and a
    body that gives back the [amount] and the [currency] of the request as
    they were sent, with the status ["completed"]; the success event carries
    them and the [customerId] too, which the body leaves out.  The events of
    the three failing outcomes carry neither amount, currency nor customer
    id. *)
Theorem payment_success_echoes_request (O : Oracles) (req : Req) (w : World) :
  truthy (prop (body req) "amount") = true ->
  truthy (prop (body req) "currency") = true ->
  truthy (prop (body req) "customerId") = true ->
  let f := mathRandom O (1 + randomCalls w) in
  let t := mathRandom O (2 + randomCalls w) in
  let v := mathRandom O (3 + randomCalls w) in
  let out := serve O PostPayments req w in
  exists e1 e2 e3 e4,
    added w out.2 = [e1; e2; e3; e4] /\
    (0.05 <= t -> 0.1 <= v -> 0.2 <= f ->
     statusCode out.1 = 200%Z /\
     (exists paymentId timestamp,
        sent out.1 = Some [ ("success", JBool true); ("payment_id", paymentId);
                            ("amount", prop (body req) "amount");
                            ("currency", prop (body req) "currency");
                            ("status", JStr "completed");
                            ("timestamp", timestamp) ]) /\
     field "amount" (entry e3) = prop (body req) "amount" /\
     field "currency" (entry e3) = prop (body req) "currency" /\
     field "customer_id" (entry e3) = prop (body req) "customerId") /\
    ((400 <= statusCode out.1)%Z ->
     field "amount" (entry e3) = JUndefined /\
     field "currency" (entry e3) = JUndefined /\
     field "customer_id" (entry e3) = JUndefined).
Proof.
  intros Ha Hc Hi f t v out.
  destruct (serve_payment_full O req w Ha Hc Hi)
    as (Hcode & Hsent & _ & _ & e1 & e2 & e3 & e4 & Hadd & _ & _ & _ & _ & _ & _
        & Hcust & Hamt & Hcur).
  fold out in Hcode, Hsent, Hadd, Hcust, Hamt, Hcur.
  exists e1, e2, e3, e4. split; [exact Hadd|]. split.
  - intros Ht Hv Hf. apply Qltb_ge in Ht, Hv, Hf.
    subst f t v. rewrite Ht, Hv, Hf in *. cbn in Hcust, Hamt, Hcur.
    split; [exact Hcode|]. split; [by eexists _, _|]. by repeat split.
  - intros Hbad. rewrite Hcode in Hbad.
    apply Z.leb_le in Hbad. rewrite Hbad in *. by repeat split.
Qed.

End PaymentLabels.

Lemma payment_id_everywhere_witness :
  truthy (prop (body tenDollars) "amount") = true /\
  truthy (prop (body tenDollars) "currency") = true /\
  truthy (prop (body tenDollars) "customerId") = true /\
  exists obj,
    sent (serve (scripted [0.5; 0.1; 0.9; 0.9]%Q) PostPayments tenDollars idle).1
      = Some obj /\
    field "payment_id" obj = JStr "pmt_0000000000".
Proof.
  split; [reflexivity|]. split; [reflexivity|]. split; [reflexivity|].
  destruct (payment_id_everywhere (scripted [0.5; 0.1; 0.9; 0.9]%Q) tenDollars idle
              eq_refl eq_refl eq_refl)
    as (obj & _ & _ & _ & _ & Hsent & Hid & _).
  exists obj. split; [exact Hsent | exact Hid].
Defined.

Lemma payment_success_echoes_request_witness :
  truthy (prop (body tenDollars) "amount") = true /\
  truthy (prop (body tenDollars) "currency") = true /\
  truthy (prop (body tenDollars) "customerId") = true /\
  (0.05 <= 0.9)%Q /\ (0.1 <= 0.9)%Q /\ (0.2 <= 0.9)%Q /\
  statusCode (serve (scripted [0.5; 0.9; 0.9; 0.9]%Q) PostPayments tenDollars idle).1
    = 200%Z.
Proof.
  split; [reflexivity|]. split; [reflexivity|]. split; [reflexivity|].
  split; [discriminate|]. split; [discriminate|]. split; [discriminate|].
  destruct (payment_success_echoes_request (scripted [0.5; 0.9; 0.9; 0.9]%Q)
              tenDollars idle eq_refl eq_refl eq_refl)
    as (e1 & e2 & e3 & e4 & _ & Hok & _).
  apply Hok; discriminate.
Defined.

Section LookupDelay.
Local Open Scope Q_scope.


End LookupDelay.


Section DistinctTransactions.
Context (O : Oracles).

Lemma dispatch_uuidCalls (route : Route) (req : Req) (res : Res) (w : World) :
  uuidCalls (dispatch O route req res w).2 = uuidCalls w.
Proof.
  destruct route; cbn [dispatch];
    unfold postPayments, getPaymentStatus, postRefunds, getHealth, getRoot;
    unfold json, res_end; unfold_m;
    repeat match goal with
           | |- context [if ?c then _ else _] => destruct c
           | |- context [match endHook ?r with _ => _ end] =>
               destruct (endHook r) as [[? ?]|]
           end;
    reflexivity.
Qed.

(** The ids of an accepted request, and the [uuidv4] calls it has used. *)
Lemma accept_ids (route : Route) (req : Req) (w : World) :
  exists n,
    (uuidCalls w <= n)%nat /\
    transactionId (accept O route req w).1.1 = JStr (uuidv4 O n) /\
    uuidCalls (accept O route req w).2 = S n /\
    (truthy (header req "x-trace-id") = false ->
     n = S (uuidCalls w) /\
     traceId (accept O route req w).1.1 = JStr (uuidv4 O (uuidCalls w))).
Proof.
  rewrite accept_unfold.
  destruct (middlewares_spec O req w)
    as (req' & res' & w1 & ev & -> & Htr & Htx & _ & _ & _ & _ & _ & _ & _ & Hu & _).
  pose proof (dispatch_uuidCalls route req' res' w1) as Hd.
  destruct (dispatch O route req' res' w1) as [reply w2]. cbn in *.
  eexists. split; [|split; [exact Htx|split; [by rewrite Hd|]]].
  - destruct (truthy (header req "x-trace-id")); lia.
  - intros Hno. rewrite Hno in *. by split.
Qed.

(** X10. When [uuidv4] never returns the same token twice, a request gets a
    transaction id different from that of every request accepted before it,
    also when both carry the same [x-trace-id] header; and a request without
    the header gets a trace id that differs from its own transaction id. *)
Theorem transaction_ids_differ (route1 route2 : Route) (req1 req2 : Req)
    (w w2 : World) :
  (forall i j, i <> j -> uuidv4 O i <> uuidv4 O j) ->
  let first := accept O route1 req1 w in
  let second := accept O route2 req2 w2 in
  (uuidCalls first.2 <= uuidCalls w2)%nat ->
  transactionId second.1.1 <> transactionId first.1.1 /\
  (truthy (header req2 "x-trace-id") = false ->
   traceId second.1.1 <> transactionId second.1.1 /\
   traceId second.1.1 <> transactionId first.1.1).
Proof.
  intros Hinj first second Hlater. subst first second.
  destruct (accept_ids route1 req1 w) as (n1 & _ & Ht1 & Hu1 & _).
  destruct (accept_ids route2 req2 w2) as (n2 & Hn2 & Ht2 & _ & Hfresh).
  rewrite Hu1 in Hlater. rewrite Ht1, Ht2. split.
  - intros [= E]. apply (Hinj n2 n1); [lia|done].
  - intros Hno. destruct (Hfresh Hno) as [-> ->]. split.
    + intros [= E]. apply (Hinj (uuidCalls w2) (S (uuidCalls w2))); [lia|done].
    + intros [= E]. apply (Hinj (uuidCalls w2) n1); [lia|done].
Qed.

End DistinctTransactions.

Lemma transaction_ids_differ_witness :
  (forall i j, i <> j -> uuidv4 (scripted []) i <> uuidv4 (scripted []) j) /\
  transactionId (accept (scripted []) GetHealth lookup
                   (accept (scripted []) GetHealth lookup idle).2).1.1
  <> transactionId (accept (scripted []) GetHealth lookup idle).1.1.
Proof.
  assert (forall i j, i <> j -> uuidv4 (scripted []) i <> uuidv4 (scripted []) j) as Hinj.
  { intros i j Hij E. cbn in E. injection E as E.
    by apply pretty_nat_inj in E. }
  split; [exact Hinj|].
  apply (transaction_ids_differ (scripted []) GetHealth GetHealth lookup lookup idle
           (accept (scripted []) GetHealth lookup idle).2 Hinj).
  apply le_n.
Defined.

(** * Further properties of the generator *)

Module ClientFacts.
Import LoadGenerator Client.

Section RandomInt.
Context (mathRandom : nat -> Q).
Local Open Scope Q_scope.


End RandomInt.


Section GeneratedRequests.
Context (src : Sources) (mathRandom : nat -> Q).
Local Open Scope Q_scope.

Lemma field_absent (k : string) (o : Obj) :
  ~ In k (keys o) -> field k o = JUndefined.
Proof.
  induction o as [|[k' v] o IH]; [done|].
  cbn. intros Hk. destruct (String.eqb_spec k k') as [->|_]; [tauto|].
  apply IH. tauto.
Qed.

(** A property read on the far side of the wire is the property of the
    object that was sent. *)
Lemma prop_wire (k : string) (o : Obj) :
  List.NoDup (keys o) -> prop (wire o) k = field k o.
Proof.
  unfold wire, prop. induction o as [|[k' v] o IH]; [done|].
  intros Hnd. inversion Hnd as [|? ? Hk' Hnd']; subst.
  specialize (IH Hnd'). cbn [List.filter snd field].
  destruct (String.eqb_spec k k') as [->|Hne].
  - destruct v; rewrite ?list_to_map_cons, ?lookup_insert_eq; try reflexivity.
    rewrite IH. by apply field_absent.
  - destruct v; rewrite ?list_to_map_cons, ?lookup_insert_ne by congruence;
      exact IH.
Qed.

Lemma truthy_cents (cents : Z) :
  (1 <= cents)%Z -> truthy (JNum (inject_Z cents / 100)) = true.
Proof.
  intros H. cbn [truthy]. apply negb_true_iff.
  destruct (Qeq_bool (inject_Z cents / 100) 0) eqn:E; [|done].
  apply Qeq_bool_iff in E. unfold Qeq in E. cbn in E. lia.
Qed.

Lemma truthy_currency (i : Z) :
  (0 <= i <= 5)%Z ->
  In (index currencies i) currencies /\ truthy (index currencies i) = true.
Proof.
  intros Hi.
  assert (i = 0 \/ i = 1 \/ i = 2 \/ i = 3 \/ i = 4 \/ i = 5)%Z
    as [->|[->|[->|[->|[->| ->]]]]] by lia; cbn; auto 10.
Qed.

Lemma generatePaymentRequest_fields (g : Gen) (k : nat) :
  (forall n, 0 <= mathRandom n /\ mathRandom n < 1) ->
  exists (cents month year : Z) (currency : JsValue),
    generatePaymentRequest src mathRandom g k =
      ([ ("amount", JNum (inject_Z cents / 100));
         ("currency", currency);
         ("customerId",
          JStr ("cust_" +:+ String.substring 0 8 (fakerUuid src k)));
         ("cardDetails",
          JObj [ ("number", JStr (fakerCardNumber src (1 + k)));
                 ("expiry", JStr (pretty month +:+ "/" +:+ pretty year));
                 ("cvv", JStr (fakerCardCVV src (2 + k))) ]) ],
       drawn 4 g, (3 + k)%nat) /\
    (100 <= cents <= 10000)%Z /\
    In currency currencies /\ truthy currency = true /\
    (1 <= month <= 12)%Z /\ (23 <= year <= 30)%Z.
Proof.
  intros Hr.
  unfold generatePaymentRequest, getRandomInt, random.
  cbn -[floor Z.add Z.sub Qmult Qdiv inject_Z pretty index String.substring].
  eexists _, _, _, _. split; [reflexivity|].
  destruct (Hr (randomCalls g)) as [Ha0 Ha1].
  destruct (Hr (S (randomCalls g))) as [Hb0 Hb1].
  destruct (Hr (S (S (randomCalls g)))) as [Hc0 Hc1].
  destruct (Hr (S (S (S (randomCalls g))))) as [Hd0 Hd1].
  pose proof (floor_scaled _ (10000 - 100 + 1) Ha0 Ha1 ltac:(lia)) as Hcents.
  pose proof (floor_scaled _ (Z.of_nat (length currencies) - 1 - 0 + 1)
                Hb0 Hb1 ltac:(cbn; lia)) as Hcur.
  pose proof (floor_scaled _ (12 - 1 + 1) Hc0 Hc1 ltac:(lia)) as Hmonth.
  pose proof (floor_scaled _ (30 - 23 + 1) Hd0 Hd1 ltac:(lia)) as Hyear.
  split; [lia|].
  assert (0 <= floor (mathRandom (S (randomCalls g))
                      * inject_Z (Z.of_nat (length currencies) - 1 - 0 + 1)) + 0 <= 5)%Z
    as Hi by (cbn [length currencies] in *; lia).
  destruct (truthy_currency _ Hi) as [Hin Htr].
  split; [exact Hin|]. split; [exact Htr|]. lia.
Qed.

(** X12. With draws of [[0, 1)], [generatePaymentRequest()] gives an
    amount of 100 to 10000 cents divided by 100, one of the six currencies,
    a customer id of [cust_] and the first eight characters of a [faker]
    uuid, and an expiry of a month 1 to 12 and a year 23 to 30; it consumes
    four draws and three [faker] calls. *)
Theorem generated_payment_request (g : Gen) (k : nat) :
  (forall n, 0 <= mathRandom n /\ mathRandom n < 1) ->
  let out := generatePaymentRequest src mathRandom g k in
  let data := out.1.1 in
  (exists cents : Z,
     (100 <= cents <= 10000)%Z /\
     field "amount" data = JNum (inject_Z cents / 100)) /\
  In (field "currency" data) currencies /\
  field "customerId" data =
    JStr ("cust_" +:+ String.substring 0 8 (fakerUuid src k)) /\
  (exists month year : Z,
     (1 <= month <= 12)%Z /\ (23 <= year <= 30)%Z /\
     field "cardDetails" data =
       JObj [ ("number", JStr (fakerCardNumber src (1 + k)));
              ("expiry", JStr (pretty month +:+ "/" +:+ pretty year));
              ("cvv", JStr (fakerCardCVV src (2 + k))) ]) /\
  keys data = ["amount"; "currency"; "customerId"; "cardDetails"] /\
  out.1.2 = drawn 4 g /\ out.2 = (3 + k)%nat.
Proof.
  intros Hr out data. subst data out.
  destruct (generatePaymentRequest_fields g k Hr)
    as (cents & month & year & cur & -> & Hcents & Hin & _ & Hmonth & Hyear).
  cbn [fst snd].
  split; [by exists cents|]. split; [exact Hin|]. split; [reflexivity|].
  split; [by exists month, year|]. by repeat split.
Qed.

(** X13. Every request [generatePaymentRequest()] builds from draws of
    [[0, 1)] passes the payment handler's check once it is posted: the
    service reads the amount, the currency and the customer id that were
    sent, sets its timer and never answers 400 for a missing field. *)
Theorem generated_payment_is_accepted (g : Gen) (k : nat)
    (O : PaymentService.Oracles) (ambient : gmap string string) (peer : JsValue)
    (traceId : string) (res : PaymentService.Res) (w : PaymentService.World) :
  (forall n, 0 <= mathRandom n /\ mathRandom n < 1) ->
  let data := (generatePaymentRequest src mathRandom g k).1.1 in
  let req := post "/api/payments" ambient peer traceId data in
  prop (PaymentService.body req) "amount" = field "amount" data /\
  prop (PaymentService.body req) "currency" = field "currency" data /\
  prop (PaymentService.body req) "customerId" = field "customerId" data /\
  exists ms callback w',
    PaymentService.postPayments O req res w = (Timer ms callback, w').
Proof.
  intros Hr data req.
  destruct (generatePaymentRequest_fields g k Hr)
    as (cents & month & year & cur & Heq & Hcents & _ & Hcur & _).
  subst req data. rewrite Heq. cbn [fst snd post PaymentService.body].
  assert (List.NoDup (keys [ ("amount", JNum (inject_Z cents / 100));
                             ("currency", cur);
                             ("customerId",
                              JStr ("cust_" +:+ String.substring 0 8 (fakerUuid src k)));
                             ("cardDetails",
                              JObj [ ("number", JStr (fakerCardNumber src (1 + k)));
                                     ("expiry", JStr (pretty month +:+ "/" +:+ pretty year));
                                     ("cvv", JStr (fakerCardCVV src (2 + k))) ]) ]))
    as Hnd.
  { cbn. repeat constructor; cbn; intuition discriminate. }
  rewrite !(prop_wire _ _ Hnd).
  repeat (split; [reflexivity|]).
  destruct (postPayments_valid O
              (post "/api/payments" ambient peer traceId
                 [ ("amount", JNum (inject_Z cents / 100));
                   ("currency", cur);
                   ("customerId",
                    JStr ("cust_" +:+ String.substring 0 8 (fakerUuid src k)));
                   ("cardDetails",
                    JObj [ ("number", JStr (fakerCardNumber src (1 + k)));
                           ("expiry", JStr (pretty month +:+ "/" +:+ pretty year));
                           ("cvv", JStr (fakerCardCVV src (2 + k))) ]) ])
              res w) as (w' & Hpost & _).
  - cbn [post PaymentService.body]. rewrite (prop_wire _ _ Hnd).
    apply truthy_cents. lia.
  - cbn [post PaymentService.body]. rewrite (prop_wire _ _ Hnd). exact Hcur.
  - cbn [post PaymentService.body]. rewrite (prop_wire _ _ Hnd). reflexivity.
  - by eexists _, _, w'.
Qed.

(** X14. For an id that is truthy, [generateRefundRequest(paymentId)]
    built from a draw of [[0, 1)] carries that id and an amount of 50 to
    10000 cents divided by 100, and passes the refund handler's check once
    it is posted. *)
Theorem generated_refund_is_accepted (paymentId : JsValue) (g : Gen) (k : nat)
    (O : PaymentService.Oracles) (ambient : gmap string string) (peer : JsValue)
    (traceId : string) (res : PaymentService.Res) (w : PaymentService.World) :
  truthy paymentId = true ->
  0 <= mathRandom (randomCalls g) -> mathRandom (randomCalls g) < 1 ->
  let data := (generateRefundRequest src mathRandom paymentId g k).1.1 in
  let req := post "/api/refunds" ambient peer traceId data in
  (exists cents,
     (50 <= cents <= 10000)%Z /\
     data = [ ("paymentId", paymentId);
              ("amount", JNum (inject_Z cents / 100));
              ("reason", JStr (fakerSentence src k)) ]) /\
  prop (PaymentService.body req) "paymentId" = paymentId /\
  exists ms callback w',
    PaymentService.postRefunds O req res w = (Timer ms callback, w').
Proof.
  intros Hid H0 H1 data req. subst req data.
  unfold generateRefundRequest, getRandomInt, random.
  cbn -[floor Z.add Z.sub Qmult Qdiv inject_Z].
  pose proof (floor_scaled _ (10000 - 50 + 1) H0 H1 ltac:(lia)) as Hcents.
  set (cents := (floor (mathRandom (randomCalls g) * inject_Z (10000 - 50 + 1)) + 50)%Z)
    in *.
  assert (List.NoDup (keys [ ("paymentId", paymentId);
                             ("amount", JNum (inject_Z cents / 100));
                             ("reason", JStr (fakerSentence src k)) ])) as Hnd.
  { cbn. repeat constructor; cbn; intuition discriminate. }
  split; [exists cents; split; [lia|reflexivity]|].
  rewrite (prop_wire _ _ Hnd). split; [reflexivity|].
  destruct (postRefunds_valid O
              (post "/api/refunds" ambient peer traceId
                 [ ("paymentId", paymentId);
                   ("amount", JNum (inject_Z cents / 100));
                   ("reason", JStr (fakerSentence src k)) ])
              res w) as (cb & w' & Hpost & _).
  - cbn [post PaymentService.body]. rewrite (prop_wire _ _ Hnd). exact Hid.
  - cbn [post PaymentService.body]. rewrite (prop_wire _ _ Hnd).
    apply truthy_cents. lia.
  - by eexists _, cb, w'.
Qed.

End GeneratedRequests.

Lemma replay_nothing (n : nat) : (0 <= replay [] n)%Q /\ (replay [] n < 1)%Q.
Proof. unfold replay. by destruct n. Qed.

Lemma generated_payment_request_witness :
  (forall n, (0 <= replay [] n)%Q /\ (replay [] n < 1)%Q) /\
  exists cents,
    (100 <= cents <= 10000)%Z /\
    field "amount" (generatePaymentRequest Samples.sources (replay []) started 0).1.1
      = JNum (inject_Z cents / 100).
Proof.
  split; [exact replay_nothing|].
  destruct (generated_payment_request Samples.sources (replay []) started 0
              replay_nothing)
    as (Hamount & _).
  exact Hamount.
Defined.

Lemma generated_payment_is_accepted_witness :
  (forall n, (0 <= replay [] n)%Q /\ (replay [] n < 1)%Q) /\
  exists ms callback w',
    PaymentService.postPayments (scripted [])
      (post "/api/payments" ∅ (JStr "::1") "trace-1"
         (generatePaymentRequest Samples.sources (replay []) started 0).1.1)
      freshRes idle
    = (Timer ms callback, w').
Proof.
  split; [exact replay_nothing|].
  exact (proj2 (proj2 (proj2
           (generated_payment_is_accepted Samples.sources (replay []) started 0
              (scripted []) ∅ (JStr "::1") "trace-1" freshRes idle replay_nothing)))).
Defined.

Lemma generated_refund_is_accepted_witness :
  truthy (JStr "pmt_x") = true /\
  (0 <= replay [] 0)%Q /\ (replay [] 0 < 1)%Q /\
  exists ms callback w',
    PaymentService.postRefunds (scripted [])
      (post "/api/refunds" ∅ (JStr "::1") "trace-1"
         (generateRefundRequest Samples.sources (replay []) (JStr "pmt_x")
            started 0).1.1)
      freshRes idle
    = (Timer ms callback, w').
Proof.
  split; [reflexivity|]. split; [discriminate|]. split; [reflexivity|].
  refine (proj2 (proj2
            (generated_refund_is_accepted Samples.sources (replay []) (JStr "pmt_x")
               started 0 (scripted []) ∅ (JStr "::1") "trace-1" freshRes idle
               eq_refl _ _))).
  - discriminate.
  - reflexivity.
Defined.

Section PoolContents.
Context (parseInt : string -> option Z) (mathRandom : nat -> Q).
Local Open Scope Q_scope.

Lemma delete_past_end {A} (l : list A) (i : nat) :
  (length l <= i)%nat -> delete i l = l.
Proof.
  revert i. induction l as [|x l IH]; intros i Hi; [by destruct i|].
  destruct i as [|i]; cbn in *; [lia|]. f_equal. apply IH. lia.
Qed.

Lemma delete_at_most_one {A} (l : list A) (i : nat) :
  (length l - 1 <= length (delete i l))%nat.
Proof.
  destruct (decide (i < length l)%nat) as [Hi|Hi].
  - rewrite length_delete; [lia|]. by apply lookup_lt_is_Some_2.
  - rewrite delete_past_end by lia. lia.
Qed.



(** X16. When a call comes back, the pool changes by at most one id.  A
    refund that comes back removes one id at most, keeps the order of the
    others, and removes none when its index is past the end of the pool, as
    it can be when other ticks have shrunk the pool in the meantime; a
    payment that was rejected, and every other call, leaves the generator
    as it is. *)
Theorem resume_changes_pool_by_one (rest : Rest) (result : HttpResult) (g : Gen) :
  let pool := successfulPaymentIds g in
  let pool' := successfulPaymentIds (tickResume mathRandom rest result g) in
  (length pool - 1 <= length pool' <= length pool + 1)%nat /\
  (forall i, rest = MaybeForget i ->
     pool' `sublist_of` pool /\
     ((Z.of_nat (length pool) <= i)%Z -> pool' = pool)) /\
  (rest = Nothing -> tickResume mathRandom rest result g = g) /\
  (rest = Remember -> result = Rejected -> tickResume mathRandom rest result g = g).
Proof.
  intros pool pool'. subst pool pool'.
  split; [|split; [|split]].
  - destruct rest.
    + rewrite GeneratorFacts.remember_pool. cbv zeta.
      destruct (truthy (makePaymentRequest result)); [|lia].
      destruct (100 <? _)%nat; rewrite ?length_drop, length_app; cbn; lia.
    + cbn. lia.
    + unfold tickResume, random. cbn -[Qltb splice1].
      destruct (Qltb 0.5 (mathRandom (randomCalls g))); cbn -[splice1]; [|lia].
      unfold splice1.
      pose proof (GeneratorFacts.splice1_length (successfulPaymentIds g) randomIndex).
      unfold splice1 in *.
      match goal with
      | |- context [delete ?n ?l] => pose proof (delete_at_most_one l n)
      end. lia.
  - intros i ->. unfold tickResume, random. cbn -[Qltb splice1].
    destruct (Qltb 0.5 (mathRandom (randomCalls g))); cbn -[splice1].
    + split; [unfold splice1; apply sublist_delete|].
      intros Hi. unfold splice1. destruct (Z.ltb_spec i 0); [lia|].
      apply delete_past_end. lia.
    + by split.
  - by intros ->.
  - by intros -> ->.
Qed.

End PoolContents.


Section EndToEnd.
Context (src : Sources) (mathRandom : nat -> Q) (O : PaymentService.Oracles).
Local Open Scope Q_scope.

Lemma generated_payment_truthy (g : Gen) (k : nat) (ambient : gmap string string)
    (peer : JsValue) (traceId : string) :
  (forall n, 0 <= mathRandom n /\ mathRandom n < 1) ->
  let req := post "/api/payments" ambient peer traceId
               (generatePaymentRequest src mathRandom g k).1.1 in
  truthy (prop (PaymentService.body req) "amount") = true /\
  truthy (prop (PaymentService.body req) "currency") = true /\
  truthy (prop (PaymentService.body req) "customerId") = true.
Proof.
  intros Hr req. subst req.
  destruct (generatePaymentRequest_fields src mathRandom g k Hr)
    as (cents & month & year & cur & Heq & Hcents & _ & Hcur & _).
  rewrite Heq. cbn [fst snd post PaymentService.body].
  assert (List.NoDup (keys [ ("amount", JNum (inject_Z cents / 100));
                             ("currency", cur);
                             ("customerId",
                              JStr ("cust_" +:+ String.substring 0 8 (fakerUuid src k)));
                             ("cardDetails",
                              JObj [ ("number", JStr (fakerCardNumber src (1 + k)));
                                     ("expiry", JStr (pretty month +:+ "/" +:+ pretty year));
                                     ("cvv", JStr (fakerCardCVV src (2 + k))) ]) ]))
    as Hnd.
  { cbn. repeat constructor; cbn; intuition discriminate. }
  rewrite !(prop_wire _ _ Hnd). cbn [field String.eqb Ascii.eqb Bool.eqb].
  split; [apply truthy_cents; lia|]. split; [exact Hcur|reflexivity].
Qed.

(** X17. A call of [makePaymentRequest()] against the service, with draws
    of [[0, 1)] on the generator's side: when the service sets none of its
    three flags it answers 200, the call returns the payment id of the
    service and a payment tick that resumes with it puts that id at the end
    of the pool; when any flag is set the service answers 504, 400 or 500,
    axios rejects, the call returns [null] and the tick leaves the generator
    untouched.  Either way the call has used four draws, three [faker]
    calls and one [uuidv4] call of the generator. *)
Theorem payment_call_end_to_end (ambient : gmap string string) (peer : JsValue)
    (g g' : Gen) (k u : nat) (w : PaymentService.World) :
  (forall n, 0 <= mathRandom n /\ mathRandom n < 1) ->
  let out := callPayment src mathRandom O ambient peer g k u w in
  let result := out.1.1.1.1 in
  let f := PaymentService.mathRandom O (1 + PaymentService.randomCalls w) in
  let t := PaymentService.mathRandom O (2 + PaymentService.randomCalls w) in
  let v := PaymentService.mathRandom O (3 + PaymentService.randomCalls w) in
  let paymentId :=
    JStr ("pmt_" +:+ PaymentService.fakerAccount O (PaymentService.fakerCalls w)) in
  (0.05 <= t -> 0.1 <= v -> 0.2 <= f ->
   makePaymentRequest result = paymentId /\
   successfulPaymentIds (tickResume mathRandom Remember result g') =
     if (100 <? length (successfulPaymentIds g' ++ [paymentId]))%nat
     then drop 1 (successfulPaymentIds g' ++ [paymentId])
     else (successfulPaymentIds g' ++ [paymentId])%list) /\
  (t < 0.05 \/ v < 0.1 \/ f < 0.2 ->
   result = Rejected /\
   makePaymentRequest result = JNull /\
   tickResume mathRandom Remember result g' = g') /\
  out.1.1.1.2 = drawn 4 g /\ out.1.1.2 = (3 + k)%nat /\ out.1.2 = (1 + u)%nat.
Proof.
  intros Hr out result f t v paymentId.
  destruct (generatePaymentRequest_fields src mathRandom g k Hr)
    as (cents & month & year & cur & Heq & _).
  destruct (generated_payment_truthy g k ambient peer (clientUuid src u) Hr)
    as (Ha & Hc & Hi).
  subst result out. unfold callPayment.
  rewrite Heq in *. cbn [fst snd] in *.
  match goal with
  | |- context [PaymentService.serve O PaymentService.PostPayments ?rq w] =>
      set (req := rq) in *
  end.
  destruct (serve_payment_full O req w Ha Hc Hi)
    as (Hcode & Hsent & _).
  cbv zeta in Hcode, Hsent. fold f t v paymentId in Hcode, Hsent.
  destruct (PaymentService.serve O PaymentService.PostPayments req w)
    as [res w1]. cbn [fst snd] in *.
  split; [|split; [|by repeat split]].
  - intros Ht Hv Hf. apply Qltb_ge in Ht, Hv, Hf.
    rewrite Ht, Hv, Hf in Hcode, Hsent.
    assert (makePaymentRequest (settle res) = paymentId) as Hid.
    { unfold settle. rewrite Hcode, Hsent. cbn [Z.leb Z.ltb andb makePaymentRequest].
      change ((200 <=? 200)%Z && (200 <? 300)%Z) with true. cbn [makePaymentRequest].
      rewrite prop_wire; [reflexivity|].
      cbn. repeat constructor; cbn; intuition discriminate. }
    split; [exact Hid|].
    rewrite GeneratorFacts.remember_pool. cbv zeta. rewrite Hid.
    reflexivity.
  - intros Hflag.
    assert (settle res = Rejected) as Hrej.
    { unfold settle. rewrite Hcode.
      destruct (Qltb_lt t 0.05) as [_ Ht'], (Qltb_lt v 0.1) as [_ Hv'],
               (Qltb_lt f 0.2) as [_ Hf'].
      destruct (Qltb t 0.05) eqn:Et; [reflexivity|].
      destruct (Qltb v 0.1) eqn:Ev; [reflexivity|].
      destruct (Qltb f 0.2) eqn:Ef; [reflexivity|].
      apply Qltb_ge in Et, Ev, Ef.
      destruct Hflag as [H|[H|H]]; exfalso; lra. }
    rewrite Hrej. by repeat split.
Qed.

(** X18. The trace id the generator sends with a call is the trace id the
    service works under, provided it is not the empty string: the request
    is accepted with it, every event logged while the request is accepted
    carries it, and when the response is sent its [x-trace-id] header gives
    it back, with every event logged by then carrying it too. *)
Theorem trace_id_round_trip (route : PaymentService.Route) (path : string)
    (ambient : gmap string string) (peer : JsValue) (traceId : string)
    (data : Obj) (w : PaymentService.World) :
  traceId <> EmptyString ->
  let accepted := PaymentService.accept O route
                    (post path ambient peer traceId data) w in
  PaymentService.traceId accepted.1.1 = JStr traceId /\
  Forall (fun e => field "trace_id" (PaymentService.entry e) = JStr traceId)
         (added w accepted.2) /\
  forall w2,
    let answered := PaymentService.fire accepted.1.2 w2 in
    PaymentService.resHeaders answered.1 !! "x-trace-id" = Some (JStr traceId) /\
    Forall (fun e => field "trace_id" (PaymentService.entry e) = JStr traceId)
           (added w2 answered.2).
Proof.
  intros Hne accepted. subst accepted. rewrite accept_unfold.
  set (req := post path ambient peer traceId data).
  assert (PaymentService.header req "x-trace-id" = JStr traceId) as Hh.
  { unfold PaymentService.header, req, post. cbn [PaymentService.headers].
    by rewrite lookup_insert_eq. }
  assert (truthy (JStr traceId) = true) as Htr.
  { cbn. apply negb_true_iff. by apply String.eqb_neq. }
  destruct (middlewares_spec O req w)
    as (req' & res' & w1 & ev & -> & Ht & _ & _ & _ & _ & _ & Hhook & Hhd & _ & _ & _
        & Hl & Hev & _).
  rewrite Hh, Htr in Ht, Hhd, Hev.
  destruct (dispatch_tagged O route req' res' Hhook w1) as (evs & Hl2 & Hp & Hans).
  destruct (PaymentService.dispatch O route req' res' w1) as [reply w2] eqn:Hd.
  cbn [fst snd] in *. rewrite Ht in Hp.
  split; [exact Ht|]. split.
  - rewrite (added_app w w2 (ev :: evs))
      by (rewrite Hl2, Hl, <- app_assoc; reflexivity).
    constructor; [by destruct Hev|].
    eapply Forall_impl; [exact Hp|]. by intros e [He _].
  - intros w3.
    destruct (Hans w3) as (evs3 & Hl3 & Hp3 & Hhd3).
    rewrite Hhd3, Hhd. split; [reflexivity|].
    rewrite (added_app _ _ _ Hl3). rewrite Ht in Hp3.
    eapply Forall_impl; [exact Hp3|]. by intros e [He _].
Qed.

End EndToEnd.

Lemma payment_call_end_to_end_witness :
  (forall n, (0 <= replay [] n)%Q /\ (replay [] n < 1)%Q) /\
  (0.05 <= 0.9)%Q /\ (0.1 <= 0.9)%Q /\ (0.2 <= 0.9)%Q /\
  makePaymentRequest
    (callPayment Samples.sources (replay []) (scripted [0.5; 0.9; 0.9; 0.9]%Q)
       ∅ (JStr "::1") started 0 0 idle).1.1.1.1
  = JStr "pmt_0000000000".
Proof.
  split; [exact replay_nothing|].
  split; [discriminate|]. split; [discriminate|]. split; [discriminate|].
  destruct (payment_call_end_to_end Samples.sources (replay [])
              (scripted [0.5; 0.9; 0.9; 0.9]%Q) ∅ (JStr "::1") started started
              0 0 idle replay_nothing)
    as (Hok & _).
  apply Hok; discriminate.
Defined.

Lemma trace_id_round_trip_witness :
  "trace-1" <> EmptyString /\
  PaymentService.traceId
    (PaymentService.accept (scripted []) PaymentService.GetHealth
       (post "/health" ∅ (JStr "::1") "trace-1" []) idle).1.1
  = JStr "trace-1".
Proof.
  split; [discriminate|].
  refine (proj1 (trace_id_round_trip (scripted []) PaymentService.GetHealth "/health"
                   ∅ (JStr "::1") "trace-1" [] idle _)).
  discriminate.
Defined.

End ClientFacts.
